(** * ClipGenius backend: request orchestration, cache store and identifier
    extraction, embedded from [backend/main.py] and [backend/services/*.py].

    - Python strings are sequences of 8-bit characters (code points below
      256); every literal the program matches against is ASCII.
    - Values decoded from JSON are the type [json]; a [dict] is a finite map
      with string keys.
    - A handler or a service function is a computation [M A]: it reads and
      writes the cache file, appends to a trace of what it did outside the
      process (transcript fetch, request to the engine, print), and returns a
      value or raises.
    - What the program does not own (transcript service, engine endpoint,
      disk, clock, environment variable, JSON decoder, coercions of the
      response model) is a record [env] of answers, one per request. *)

From Stdlib Require Import ZArith QArith Ascii.
From stdpp Require Import base option list strings gmap.

Local Open Scope string_scope.
Local Open Scope Z_scope.

(** ** Python string primitives used by the services *)

Module PyStr.

(** [s.startswith(p)]: the remainder after [p], when [s] starts with it. *)
Fixpoint strip_prefix (p s : string) : option string :=
  match p, s with
  | EmptyString, _ => Some s
  | String a p', String b s' =>
      if Ascii.eqb a b then strip_prefix p' s' else None
  | String _ _, EmptyString => None
  end.

Definition startswith (s p : string) : bool :=
  match strip_prefix p s with Some _ => true | None => false end.

(** [needle in s]: leftmost scan, as the interpreter does. *)
Fixpoint contains (needle s : string) : bool :=
  if startswith s needle then true
  else match s with
       | EmptyString => false
       | String _ s' => contains needle s'
       end.

Definition code (c : ascii) : N := Ascii.N_of_ascii c.

Definition between (lo hi : N) (c : ascii) : bool :=
  ((lo <=? code c) && (code c <=? hi))%N.

(** [str.lower] on one character: A-Z and the upper-case letters of the
    second half of the 8-bit range (all but the multiplication sign). *)
Definition lower_char (c : ascii) : ascii :=
  if between 65 90 c then Ascii.ascii_of_N (code c + 32)
  else if between 192 222 c && negb (code c =? 215)%N
       then Ascii.ascii_of_N (code c + 32)
  else c.

Fixpoint lower (s : string) : string :=
  match s with
  | EmptyString => EmptyString
  | String c s' => String (lower_char c) (lower s')
  end.

(** Characters removed by [str.strip()]. *)
Definition is_space (c : ascii) : bool :=
  between 9 13 c || between 28 32 c || (code c =? 133)%N || (code c =? 160)%N.

Fixpoint lstrip (s : string) : string :=
  match s with
  | String c s' => if is_space c then lstrip s' else s
  | EmptyString => EmptyString
  end.

Fixpoint rstrip (s : string) : string :=
  match s with
  | EmptyString => EmptyString
  | String c s' =>
      match rstrip s' with
      | EmptyString => if is_space c then EmptyString else String c EmptyString
      | r => String c r
      end
  end.

Definition strip (s : string) : string := rstrip (lstrip s).

(** [s.split(sep)[1]] for a string that starts with [sep]: the text between
    the first occurrence of [sep] and the next one (or the end). *)
Fixpoint until (sep s : string) : string :=
  if startswith s sep then EmptyString
  else match s with
       | EmptyString => EmptyString
       | String c s' => String c (until sep s')
       end.

Fixpoint drop (n : nat) (s : string) : string :=
  match n, s with
  | O, _ => s
  | S n', String _ s' => drop n' s'
  | S _, EmptyString => EmptyString
  end.

(** [sep.join(parts)] *)
Fixpoint join (sep : string) (parts : list string) : string :=
  match parts with
  | [] => EmptyString
  | [p] => p
  | p :: rest => p +:+ sep +:+ join sep rest
  end.

End PyStr.

(** ** Values decoded from JSON

    What [json.load], [json.loads] and [response.json()] hand back: [None],
    [bool], [int], [float], [str], [list] and [dict] with string keys. *)

#[local] Unset Elimination Schemes.
Inductive json :=
| JNull
| JBool (b : bool)
| JInt (z : Z)
| JFloat (q : Q)
| JStr (s : string)
| JList (l : list json)
| JObj (m : gmap string json).
#[local] Set Elimination Schemes.

(** ** Exceptions, messages and the effect monad *)

(** Exceptions raised by the interpreter, the libraries and the handlers.
    The ones whose text is fixed by the caller or the library carry it.

    A [message] is the text of an error field or an HTTP detail.
    [Interp p e] is the f-string [f"{p}{str(e)}"] for an exception whose text
    the interpreter chooses, [InterpJson p j] the f-string [f"{p}{j}"] for a
    value that is not a string. *)
Inductive pyexc :=
| IndexError (msg : string)
| KeyError (key : json)
| TypeError
| AttributeError
| JSONDecodeError (msg : string)
| Timeout
| OtherException (msg : string)
| ValidationError
| HTTPException (status_code : Z) (detail : message)
with message :=
| Text (s : string)
| Interp (prefix : string) (e : pyexc)
| InterpJson (prefix : string) (j : json).

Definition format_exc (prefix : string) (e : pyexc) : message :=
  match e with
  | IndexError m | JSONDecodeError m | OtherException m => Text (prefix +:+ m)
  | _ => Interp prefix e
  end.

Definition format_json (prefix : string) (j : json) : message :=
  match j with
  | JStr s => Text (prefix +:+ s)
  | _ => InterpJson prefix j
  end.

(** One transcript segment, as [fetch_transcript] builds it. *)
Record segment := { text : string; start : Q; duration : Q }.

(** The values interpolated into the prompt of [analyze_transcript]; the
    rest of the prompt is fixed text. *)
Record prompt := {
  p_transcript : string;
  p_segments : nat;
  p_first_start : Q;
  p_last_start : Q;
}.

(** The cache file [cache.json] on disk. [Unreadable]: the file exists but
    opening or decoding it fails. [Inaccessible]: [CACHE_FILE.exists()]
    itself raises (an [OSError] other than file-not-found, such as a
    directory that may not be searched), with the text of the exception. *)
Inductive cache_file :=
| Missing
| Unreadable
| Holds (content : json)
| Inaccessible (msg : string).

Inductive event :=
| EvFetch (video_id : string)
| EvPost (p : prompt)
| EvPrint (m : message).

Record state := { fs : cache_file; trace : list event }.

Inductive outcome (A : Type) :=
| Return (a : A)
| Raise (e : pyexc).
Arguments Return {A} a.
Arguments Raise {A} e.

Definition M (A : Type) : Type := state -> outcome A * state.

Definition ret {A} (a : A) : M A := fun st => (Return a, st).
Definition raise {A} (e : pyexc) : M A := fun st => (Raise e, st).
Definition bind {A B} (m : M A) (k : A -> M B) : M B :=
  fun st =>
    match m st with
    | (Return a, st') => k a st'
    | (Raise e, st') => (Raise e, st')
    end.

(** [try: m except Exception as e: h e]; [h] re-raises what its clauses do
    not cover. *)
Definition try_except {A} (m : M A) (h : pyexc -> M A) : M A :=
  fun st =>
    match m st with
    | (Return a, st') => (Return a, st')
    | (Raise e, st') => h e st'
    end.

Definition emit (e : event) : M unit :=
  fun st => (Return tt, {| fs := fs st; trace := trace st ++ [e] |}).
Definition read_file : M cache_file := fun st => (Return (fs st), st).
Definition write_file (f : cache_file) : M unit :=
  fun st => (Return tt, {| fs := f; trace := trace st |}).

Notation "'do' x <- m ; k" := (bind m (fun x => k))
  (at level 10, x name, m at level 100, k at level 200).
Notation "'run' m ; k" := (bind m (fun _ => k))
  (at level 10, m at level 100, k at level 200).

(** ** Operations of the interpreter on decoded values *)

Module Py.

(** [j.get(key, default)] *)
Definition get (j : json) (key : string) (default : json) : M json :=
  match j with
  | JObj m => ret (match m !! key with Some v => v | None => default end)
  | _ => raise (AttributeError)
  end.

(** [j[key]] for a string key *)
Definition getitem (j : json) (key : string) : M json :=
  match j with
  | JObj m =>
      match m !! key with
      | Some v => ret v
      | None => raise ((KeyError (JStr key)))
      end
  | _ => raise (TypeError)
  end.

(** [j[0]] *)
Definition getitem0 (j : json) : M json :=
  match j with
  | JList (x :: _) => ret x
  | JList [] => raise ((IndexError "list index out of range"))
  | JStr (String c _) => ret (JStr (String c EmptyString))
  | JStr EmptyString => raise ((IndexError "string index out of range"))
  | JObj _ => raise ((KeyError (JInt 0)))
  | _ => raise (TypeError)
  end.

(** [key in j] for a string [key] *)
Definition member (key : string) (j : json) : M bool :=
  match j with
  | JObj m => ret (bool_decide (is_Some (m !! key)))
  | JList l =>
      ret (existsb (fun x => match x with
                             | JStr s => String.eqb s key
                             | _ => false
                             end) l)
  | JStr s => ret (PyStr.contains key s)
  | _ => raise (TypeError)
  end.

(** [j[key] = v] *)
Definition setitem (j : json) (key : string) (v : json) : M json :=
  match j with
  | JObj m => ret (JObj (<[key := v]> m))
  | _ => raise (TypeError)
  end.

(** [j.strip()] *)
Definition stripped (j : json) : M string :=
  match j with
  | JStr s => ret (PyStr.strip s)
  | _ => raise (AttributeError)
  end.

(** Truth value of an optional string ([None] and the empty string are false). *)
Definition truthy (o : option string) : bool :=
  match o with
  | Some (String _ _) => true
  | _ => false
  end.

End Py.

(** ** The response model of main.py *)

Record TimestampItem := { seconds : Z; time : string; reason : string }.

Record AnalyzeResponse := {
  success : bool;
  video_id : option string;
  video_title : option string;
  timestamps : list TimestampItem;
  cached : bool;
  error : option string;
}.

(** ** What the program does not own

    The answers of the transcript service, of the OpenRouter endpoint, of the
    disk and of the clock, the environment variable read at import time, the
    JSON decoder (the decoded value, or the exception it raises, a
    [JSONDecodeError] with its text for a document that is not JSON), and
    what the response model does with values that are not already of the
    declared types. *)

Inductive fetched :=
| Snippets (snippets : list segment)
| FetchError (msg : string).          (* an exception [e] with [str(e) = msg] *)

Record Response := { status_code : Z; body : string }.

Inductive posted :=
| Responded (r : Response)
| TimedOut                            (* [requests.exceptions.Timeout] *)
| RequestFailed (msg : string).       (* any other exception of [requests] *)

(** A write of the cache file: completed; refused at [open], the file left as
    it was; or failed after [open] truncated the file. *)
Inductive write_outcome :=
| Written
| OpenFailed (msg : string)
| DumpFailed (msg : string).

Record env := {
  OPENROUTER_API_KEY : option string;
  ytt_fetch : string -> fetched;
  requests_post : string -> prompt -> posted;
  json_loads : string -> json + pyexc;
  disk_write : write_outcome;
  utcnow_isoformat : string;
  coerce_timestamps : list json -> option (list TimestampItem);
  coerce_title : json -> option (option string);
}.

(** ** services/youtube.py *)

Module youtube.

Import PyStr.

(** The character class [[a-zA-Z0-9_-]]. *)
Definition id_char (c : ascii) : bool :=
  between 97 122 c || between 65 90 c || between 48 57 c
  || (code c =? 95)%N || (code c =? 45)%N.

(** [([a-zA-Z0-9_-]{n})] anchored at the head of [s]. *)
Fixpoint take_id (n : nat) (s : string) : option string :=
  match n with
  | O => Some EmptyString
  | S n' =>
      match s with
      | String c s' =>
          if id_char c
          then match take_id n' s' with
               | Some t => Some (String c t)
               | None => None
               end
          else None
      | EmptyString => None
      end
  end.

(** One pattern [(?:marker)([a-zA-Z0-9_-]{11})] tried at the head of [s]. *)
Definition match_here (marker s : string) : option string :=
  match strip_prefix marker s with
  | Some rest => take_id 11 rest
  | None => None
  end.

(** [re.search(pattern, s)] followed by [match.group(1)]: the leftmost
    position at which the pattern matches. *)
Fixpoint re_search (marker s : string) : option string :=
  match match_here marker s with
  | Some t => Some t
  | None =>
      match s with
      | EmptyString => None
      | String _ s' => re_search marker s'
      end
  end.

Definition patterns : list string :=
  [ "youtube.com/watch?v="; "youtu.be/"; "youtube.com/embed/" ].

(** The [for pattern in patterns] loop. *)
Fixpoint first_match (ps : list string) (url : string) : option string :=
  match ps with
  | [] => None
  | p :: ps' =>
      match re_search p url with
      | Some t => Some t
      | None => first_match ps' url
      end
  end.

Definition extract_video_id (youtube_url : string) : option string :=
  first_match patterns youtube_url.

Inductive fetch_result :=
| FetchOk (transcript : list segment) (full_text : string)
| FetchFailed (error : message).

(** The [except] branch: the chain of tests on [str(e).lower()]. *)
Definition classify (msg : string) : message :=
  let error_msg := lower msg in
  if contains "disabled" error_msg then
    Text "Transcripts are disabled for this video."
  else if contains "no transcript" error_msg || contains "not found" error_msg then
    Text "No transcript found for this video. It might not have captions."
  else if contains "unavailable" error_msg || contains "private" error_msg then
    Text "Video is unavailable. It might be private or deleted."
  else
    Text ("Failed to fetch transcript: " +:+ msg).

Definition fetch_transcript (E : env) (video_id : string) : M fetch_result :=
  run emit (EvFetch video_id);
  match ytt_fetch E video_id with
  | Snippets transcript_list =>
      let full_text := join " " (map text transcript_list) in
      ret (FetchOk transcript_list full_text)
  | FetchError msg => ret (FetchFailed (classify msg))
  end.

End youtube.

(** ** services/ai.py *)

Module ai.

Inductive ai_result :=
| AiOk (timestamps : json)
| AiFailed (error : message).

(** The interpolations of the prompt, in the order the f-string evaluates
    them: [transcript_segments[0]] raises on an empty list. *)
Definition build_prompt (transcript_text : string)
    (transcript_segments : list segment) : M prompt :=
  match transcript_segments with
  | [] => raise (IndexError "list index out of range")
  | s0 :: _ =>
      ret {| p_transcript := transcript_text;
             p_segments := length transcript_segments;
             p_first_start := start s0;
             p_last_start := start (List.last transcript_segments s0) |}
  end.

(** [response.json()] *)
Definition response_json (E : env) (r : Response) : M json :=
  match json_loads E (body r) with
  | inl j => ret j
  | inr e => raise e
  end.

(** Removal of one layer of code fence. *)
Definition unfence (response_text : string) : string :=
  let response_text :=
    match PyStr.strip_prefix "```" response_text with
    | Some rest =>
        let inner := PyStr.until "```" rest in
        if PyStr.startswith inner "json" then PyStr.drop 4 inner else inner
    | None => response_text
    end in
  PyStr.strip response_text.

Definition analyze_transcript (E : env) (transcript_text : string)
    (transcript_segments : list segment) : M ai_result :=
  if negb (Py.truthy (OPENROUTER_API_KEY E)) then
    ret (AiFailed (Text "OpenRouter API key not configured. Please add OPENROUTER_API_KEY to your .env file."))
  else
    try_except
      (do p <- build_prompt transcript_text transcript_segments;
       run emit (EvPost p);
       match requests_post E (default EmptyString (OPENROUTER_API_KEY E)) p with
       | TimedOut => raise Timeout
       | RequestFailed msg => raise (OtherException msg)
       | Responded response =>
           if negb (status_code response =? 200) then
             do j <- response_json E response;
             do err <- Py.get j "error" (JObj ∅);
             do error_detail <- Py.get err "message" (JStr (body response));
             ret (AiFailed (format_json "OpenRouter API error: " error_detail))
           else
             do result <- response_json E response;
             do choices <- Py.getitem result "choices";
             do choice <- Py.getitem0 choices;
             do msg <- Py.getitem choice "message";
             do content <- Py.getitem msg "content";
             do response_text <- Py.stripped content;
             match json_loads E (unfence response_text) with
             | inr e => raise e
             | inl parsed =>
                 do ts <- Py.get parsed "timestamps" (JList []);
                 ret (AiOk ts)
             end
       end)
      (fun e =>
         match e with
         | JSONDecodeError msg =>
             ret (AiFailed (Text ("Failed to parse AI response: " +:+ msg)))
         | Timeout =>
             ret (AiFailed (Text "AI request timed out. Please try again."))
         | _ => ret (AiFailed (format_exc "AI analysis failed: " e))
         end).

End ai.

(** ** services/database.py *)

Module database.

Inductive save_result :=
| SaveOk
| SaveFailed (error : message).

Inductive cached_result :=
| Found (data : json)
| NotFound.

(** The whole mapping is read back on every access; a missing or unreadable
    file reads as the empty mapping. The test [CACHE_FILE.exists()] is outside
    the [try]: what it raises is raised by [_load_cache]. *)
Definition _load_cache : M json :=
  do f <- read_file;
  match f with
  | Inaccessible msg => raise (OtherException msg)
  | Holds content => ret content
  | Unreadable => ret (JObj ∅)
  | Missing => ret (JObj ∅)
  end.

(** The whole mapping is rewritten; a failure is printed, not raised. *)
Definition _save_cache (E : env) (cache : json) : M unit :=
  match disk_write E with
  | Written => write_file (Holds cache)
  | OpenFailed msg =>
      emit (EvPrint (Text ("Failed to save cache: " +:+ msg)))
  | DumpFailed msg =>
      run write_file Unreadable;
      emit (EvPrint (Text ("Failed to save cache: " +:+ msg)))
  end.

(** The entry stored for one analysis. *)
Definition record (E : env) (video_id video_title : string) (timestamps : json)
    : json :=
  JObj (<["video_id" := JStr video_id]>
        (<["video_title" := JStr video_title]>
         (<["timestamps" := timestamps]>
          (<["created_at" := JStr (utcnow_isoformat E)]> ∅)))).

Definition save_analysis (E : env) (video_id video_title : string)
    (timestamps : json) : M save_result :=
  try_except
    (do cache <- _load_cache;
     do cache <- Py.setitem cache video_id (record E video_id video_title timestamps);
     run _save_cache E cache;
     ret SaveOk)
    (fun e => ret (SaveFailed (format_exc "Failed to save to cache: " e))).

Definition get_cached_analysis (video_id : string) : M cached_result :=
  try_except
    (do cache <- _load_cache;
     do present <- Py.member video_id cache;
     if present then
       do data <- Py.getitem cache video_id;
       ret (Found data)
     else ret NotFound)
    (fun _ => ret NotFound).

End database.

(** ** main.py *)

Module main.

Import youtube ai database.

(** Values the response model takes as they are: an [int] that fits a
    machine word for [seconds], a [str] for [time] and [reason]; keys the
    model does not declare are dropped. *)
Definition exact_item (j : json) : option TimestampItem :=
  match j with
  | JObj m =>
      match m !! "seconds", m !! "time", m !! "reason" with
      | Some (JInt z), Some (JStr t), Some (JStr r) =>
          if (- 2 ^ 63 <=? z) && (z <? 2 ^ 63)
          then Some {| seconds := z; time := t; reason := r |}
          else None
      | _, _, _ => None
      end
  | _ => None
  end.

Fixpoint exact_items (l : list json) : option (list TimestampItem) :=
  match l with
  | [] => Some []
  | j :: l' =>
      match exact_item j, exact_items l' with
      | Some i, Some is' => Some (i :: is')
      | _, _ => None
      end
  end.

(** Field [timestamps: list[TimestampItem]]: only a list is taken; what is
    not already of the declared types is left to the library. *)
Definition validate_timestamps (E : env) (j : json)
    : option (list TimestampItem) :=
  match j with
  | JList l =>
      match exact_items l with
      | Some items => Some items
      | None => coerce_timestamps E l
      end
  | _ => None
  end.

(** Field [video_title: str | None]. *)
Definition validate_title (E : env) (j : json) : option (option string) :=
  match j with
  | JStr s => Some (Some s)
  | JNull => Some None
  | _ => coerce_title E j
  end.

(** [AnalyzeResponse(success=True, video_id=..., video_title=...,
    timestamps=..., cached=...)] *)
Definition new_AnalyzeResponse (E : env) (video_id : string)
    (video_title timestamps : json) (cached : bool) : M AnalyzeResponse :=
  match validate_title E video_title, validate_timestamps E timestamps with
  | Some title, Some items =>
      ret {| success := true; video_id := Some video_id;
             video_title := title; timestamps := items;
             cached := cached; error := None |}
  | _, _ => raise ValidationError
  end.

Definition title_of (video_id : string) : string :=
  "YouTube Video (" +:+ video_id +:+ ")".

Definition analyze_video (E : env) (youtube_url : string) : M AnalyzeResponse :=
  (* Step 1: Extract video ID *)
  let extracted := extract_video_id youtube_url in
  if negb (Py.truthy extracted) then
    raise (HTTPException 400
             (Text "Invalid YouTube URL. Please provide a valid YouTube video link."))
  else
    let video_id := default EmptyString extracted in
    (* Step 2: Check for cached results *)
    do cached <- get_cached_analysis video_id;
    match cached with
    | Found data =>
        do video_title <- Py.get data "video_title" (JStr "Unknown");
        do timestamps <- Py.get data "timestamps" (JList []);
        new_AnalyzeResponse E video_id video_title timestamps true
    | NotFound =>
        (* Step 3: Fetch transcript *)
        do transcript_result <- fetch_transcript E video_id;
        match transcript_result with
        | FetchFailed error => raise (HTTPException 400 error)
        | FetchOk transcript full_text =>
            (* Step 4: Analyze with AI *)
            do ai_result <- analyze_transcript E full_text transcript;
            match ai_result with
            | AiFailed error => raise (HTTPException 500 error)
            | AiOk timestamps =>
                let video_title := title_of video_id in
                (* Step 5: Save to database *)
                run save_analysis E video_id video_title timestamps;
                (* Step 6: Return results *)
                new_AnalyzeResponse E video_id (JStr video_title) timestamps false
            end
        end
    end.

Definition get_results (E : env) (video_id : string) : M AnalyzeResponse :=
  do cached <- get_cached_analysis video_id;
  match cached with
  | NotFound =>
      raise (HTTPException 404
               (Text "No analysis found for this video. Use /api/analyze to analyze it first."))
  | Found data =>
      do video_title <- Py.get data "video_title" (JStr "Unknown");
      do timestamps <- Py.get data "timestamps" (JList []);
      new_AnalyzeResponse E video_id video_title timestamps true
  end.

(** What the framework sends for a handler's outcome: the model as the body
    of a 200, the status and detail of an [HTTPException], and a bare 500 for
    any other exception. *)
Inductive http :=
| Http200 (r : AnalyzeResponse)
| HttpError (status : Z) (detail : message)
| InternalServerError.

Definition serve (handler : M AnalyzeResponse) (st : state) : http * state :=
  match handler st with
  | (Return r, st') => (Http200 r, st')
  | (Raise (HTTPException c d), st') => (HttpError c d, st')
  | (Raise _, st') => (InternalServerError, st')
  end.

Definition status_of (h : http) : Z :=
  match h with
  | Http200 _ => 200
  | HttpError c _ => c
  | InternalServerError => 500
  end.

(** [POST /api/analyze] *)
Definition post_analyze (E : env) (youtube_url : string) (st : state) : http * state :=
  serve (analyze_video E youtube_url) st.

(** [GET /api/results/{video_id}] *)
Definition get_api_results (E : env) (video_id : string) (st : state) : http * state :=
  serve (get_results E video_id) st.

End main.

(** ** Notions the statements are written with *)

(** Every character is in the identifier alphabet. *)
Fixpoint all_id (s : string) : bool :=
  match s with
  | EmptyString => true
  | String c s' => youtube.id_char c && all_id s'
  end.

(** A recognized shape: the marker followed by an 11-character token, found
    in [url] after the text [pre]. *)
Definition shape_at (marker tok pre url : string) : Prop :=
  exists suf, url = pre +:+ marker +:+ tok +:+ suf
              /\ String.length tok = 11%nat /\ all_id tok = true.

Definition has_shape (marker url : string) : Prop :=
  exists pre tok, shape_at marker tok pre url.

(** [tok] is the token of the first occurrence of the shape in [url]. *)
Definition leftmost_shape (marker tok url : string) : Prop :=
  exists pre, shape_at marker tok pre url
    /\ forall pre' tok', shape_at marker tok' pre' url ->
         (String.length pre <= String.length pre')%nat.

Definition watch_marker : string := "youtube.com/watch?v=".
Definition short_marker : string := "youtu.be/".
Definition embed_marker : string := "youtube.com/embed/".

(** The three URL forms of the docstring of [extract_video_id]. *)
Definition watch_url (tok : string) : string :=
  "https://www.youtube.com/watch?v=" +:+ tok.
Definition short_url (tok : string) : string := "https://youtu.be/" +:+ tok.
Definition embed_url (tok : string) : string :=
  "https://www.youtube.com/embed/" +:+ tok.

(** The same surroundings with another answer of the disk, or another
    value of the environment variable. *)
Definition with_disk (w : write_outcome) (E : env) : env :=
  {| OPENROUTER_API_KEY := OPENROUTER_API_KEY E;
     ytt_fetch := ytt_fetch E;
     requests_post := requests_post E;
     json_loads := json_loads E;
     disk_write := w;
     utcnow_isoformat := utcnow_isoformat E;
     coerce_timestamps := coerce_timestamps E;
     coerce_title := coerce_title E |}.

Definition with_key (k : option string) (E : env) : env :=
  {| OPENROUTER_API_KEY := k;
     ytt_fetch := ytt_fetch E;
     requests_post := requests_post E;
     json_loads := json_loads E;
     disk_write := disk_write E;
     utcnow_isoformat := utcnow_isoformat E;
     coerce_timestamps := coerce_timestamps E;
     coerce_title := coerce_title E |}.

(** The mapping a cache file reads as; [JNull], which is no mapping, for a
    file from which nothing can be loaded. *)
Definition loaded (f : cache_file) : json :=
  match f with
  | Holds content => content
  | Unreadable | Missing => JObj ∅
  | Inaccessible _ => JNull
  end.

(** What [get] finds under a key: the cache store as a partial map. *)
Definition stored (st : state) (video_id : string) : option json :=
  match fst (database.get_cached_analysis video_id st) with
  | Return (database.Found data) => Some data
  | _ => None
  end.

(** The entry is an analysis record for the key: an object whose identifier
    field is the key. *)
Definition record_for (video_id : string) (data : json) : Prop :=
  exists m, data = JObj m /\ m !! "video_id" = Some (JStr video_id).

Definition store_ok (st : state) : Prop :=
  forall k data, stored st k = Some data -> record_for k data.

(** The operations of the cache store, with the surroundings of each call. *)
Inductive store_op :=
| Put (E : env) (video_id video_title : string) (timestamps : json)
| Get (video_id : string).

Definition apply_op (op : store_op) (st : state) : state :=
  match op with
  | Put E video_id video_title timestamps =>
      snd (database.save_analysis E video_id video_title timestamps st)
  | Get video_id => snd (database.get_cached_analysis video_id st)
  end.

Definition run_ops (ops : list store_op) (st : state) : state :=
  fold_left (fun st op => apply_op op st) ops st.

(** Number of requests sent to the analysis engine. *)
Definition is_post (e : event) : bool :=
  match e with EvPost _ => true | _ => false end.

Fixpoint engine_calls (tr : list event) : nat :=
  match tr with
  | [] => 0
  | e :: tr' => ((if is_post e then 1 else 0) + engine_calls tr')%nat
  end.

(** The error of [analyze_transcript] when the key is missing. *)
Definition not_configured : message :=
  Text "OpenRouter API key not configured. Please add OPENROUTER_API_KEY to your .env file.".

(** A computation that leaves the file and the trace as they are. *)
Definition stateless {A} (m : M A) : Prop := forall st, snd (m st) = st.

(** The prompt sent for the segments [s0 :: l]. *)
Definition prompt_for (s0 : segment) (l : list segment) : prompt :=
  {| p_transcript := PyStr.join " " (map text (s0 :: l));
     p_segments := length (s0 :: l);
     p_first_start := start s0;
     p_last_start := start (List.last (s0 :: l) s0) |}.

(** [needle] occurs in [msg] when case is ignored. *)
Definition mentions (needle msg : string) : Prop :=
  exists pre mid suf, msg = pre +:+ mid +:+ suf /\ PyStr.lower mid = needle.

(** The kinds of transcript failure, and the detail sent for each. *)
Inductive fetch_kind := Disabled | NoTranscript | Unavailable | OtherFetchError.

Definition kind_of (msg : string) (k : fetch_kind) : Prop :=
  match k with
  | Disabled => mentions "disabled" msg
  | NoTranscript =>
      ~ mentions "disabled" msg
      /\ (mentions "no transcript" msg \/ mentions "not found" msg)
  | Unavailable =>
      ~ mentions "disabled" msg
      /\ ~ (mentions "no transcript" msg \/ mentions "not found" msg)
      /\ (mentions "unavailable" msg \/ mentions "private" msg)
  | OtherFetchError =>
      ~ mentions "disabled" msg
      /\ ~ (mentions "no transcript" msg \/ mentions "not found" msg)
      /\ ~ (mentions "unavailable" msg \/ mentions "private" msg)
  end.

Definition kind_message (k : fetch_kind) (msg : string) : message :=
  match k with
  | Disabled => Text "Transcripts are disabled for this video."
  | NoTranscript =>
      Text "No transcript found for this video. It might not have captions."
  | Unavailable => Text "Video is unavailable. It might be private or deleted."
  | OtherFetchError => Text ("Failed to fetch transcript: " +:+ msg)
  end.

(** ** Concrete surroundings for the examples *)

Module Samples.

Definition dq : string := String (Ascii.ascii_of_N 34) EmptyString.
Definition quoted (s : string) : string := dq +:+ s +:+ dq.

(** A decoder given by the documents it knows, enough for the examples;
    any other text is refused as not being JSON. *)
Fixpoint decode (table : list (string * json)) (s : string) : json + pyexc :=
  match table with
  | [] => inr (JSONDecodeError "Expecting value: line 1 column 1 (char 0)")
  | (doc, j) :: table' => if String.eqb doc s then inl j else decode table' s
  end.

(** The chat-completion document whose message content is [content], and
    its text when [escaped] is [content] written as a JSON string. *)
Definition chat (content : string) : json :=
  JObj {[ "choices" :=
            JList [ JObj {[ "message" := JObj {[ "content" := JStr content ]} ]} ] ]}.

Definition chat_text (escaped : string) : string :=
  "{" +:+ quoted "choices" +:+ ":[{" +:+ quoted "message" +:+ ":{"
  +:+ quoted "content" +:+ ":" +:+ quoted escaped +:+ "}}]}".

Definition vid : string := "dQw4w9WgXcQ".
Definition url : string := "https://youtu.be/dQw4w9WgXcQ".

Definition hello_world : list segment :=
  [ {| text := "Hello"; start := 0; duration := 1 |};
    {| text := "world"; start := 1; duration := 1 |} ].

(** The engine's answer with one highlight, as text and decoded. *)
Definition opening_text : string :=
  "{" +:+ quoted "timestamps" +:+ ":[{" +:+ quoted "seconds" +:+ ":0,"
  +:+ quoted "time" +:+ ":" +:+ quoted "0:00" +:+ ","
  +:+ quoted "reason" +:+ ":" +:+ quoted "Opening" +:+ "}]}".

Definition bs : string := String (Ascii.ascii_of_N 92) EmptyString.
Definition equoted (s : string) : string := bs +:+ dq +:+ s +:+ bs +:+ dq.

Definition opening_escaped : string :=
  "{" +:+ equoted "timestamps" +:+ ":[{" +:+ equoted "seconds" +:+ ":0,"
  +:+ equoted "time" +:+ ":" +:+ equoted "0:00" +:+ ","
  +:+ equoted "reason" +:+ ":" +:+ equoted "Opening" +:+ "}]}".

Definition opening_item : json :=
  JObj {[ "seconds" := JInt 0; "time" := JStr "0:00"; "reason" := JStr "Opening" ]}.

Definition opening : json := JObj {[ "timestamps" := JList [opening_item] ]}.

(** Surroundings in which the transcript has two segments, the disk takes
    every write, and the engine answers 200 with the message content
    [content] ([escaped] in the body); [docs] are the other documents the
    decoder knows. *)
Definition engine_says (escaped content : string) (docs : list (string * json))
    : env :=
  {| OPENROUTER_API_KEY := Some "sk-or-test";
     ytt_fetch := fun _ => Snippets hello_world;
     requests_post := fun _ _ =>
       Responded {| status_code := 200; body := chat_text escaped |};
     json_loads := decode ((chat_text escaped, chat content) :: docs);
     disk_write := Written;
     utcnow_isoformat := "2024-01-01T00:00:00";
     coerce_timestamps := fun _ => None;
     coerce_title := fun _ => None |}.

(** Everything works: one highlight. *)
Definition E_ok : env :=
  engine_says opening_escaped opening_text [ (opening_text, opening) ].

(** The engine answers with an empty JSON object. *)
Definition E_empty : env := engine_says "{}" "{}" [ ("{}", JObj ∅) ].

(** The engine answers with a number where the list is expected. *)
Definition scalar_text : string := "{" +:+ quoted "timestamps" +:+ ":5}".
Definition scalar_escaped : string := "{" +:+ equoted "timestamps" +:+ ":5}".
Definition E_scalar : env :=
  engine_says scalar_escaped scalar_text
    [ (scalar_text, JObj {[ "timestamps" := JInt 5 ]}) ].

(** The engine answers in prose. *)
Definition E_prose : env :=
  engine_says "Sorry, I cannot do that." "Sorry, I cannot do that." [].

Definition st0 : state := {| fs := Missing; trace := [] |}.

End Samples.

(** ** Further notions *)

Definition is_fetch (e : event) : bool :=
  match e with EvFetch _ => true | _ => false end.

(** Number of calls to the transcript service. *)
Fixpoint fetch_calls (tr : list event) : nat :=
  match tr with
  | [] => 0
  | e :: tr' => ((if is_fetch e then 1 else 0) + fetch_calls tr')%nat
  end.

(** Sum of the lengths of the parts. *)
Fixpoint total_length (parts : list string) : nat :=
  match parts with
  | [] => 0
  | p :: rest => (String.length p + total_length rest)%nat
  end.

(** The code fence, and texts without a backtick. *)
Definition fence : string := "```".

Fixpoint no_backtick (s : string) : bool :=
  match s with
  | EmptyString => true
  | String c s' => negb (PyStr.code c =? 96)%N && no_backtick s'
  end.

(** The decoded value is not a mapping. *)
Definition not_object (j : json) : Prop := forall m, j <> JObj m.

(** Two requests saving at the same time: both read the file before either
    writes it back. Each keeps to the order of [save_analysis]: load, assign,
    save. *)
Definition racing_saves (E1 E2 : env) (k1 title1 : string) (ts1 : json)
    (k2 title2 : string) (ts2 : json) : M unit :=
  do cache1 <- database._load_cache;
  do cache2 <- database._load_cache;
  do cache1 <- Py.setitem cache1 k1 (database.record E1 k1 title1 ts1);
  run database._save_cache E1 cache1;
  do cache2 <- Py.setitem cache2 k2 (database.record E2 k2 title2 ts2);
  database._save_cache E2 cache2.

(** Surroundings for the further examples. *)
Module MoreSamples.

Import Samples.

(** The engine does not answer in time. *)
Definition E_timeout : env :=
  {| OPENROUTER_API_KEY := Some "sk-or-test";
     ytt_fetch := fun _ => Snippets hello_world;
     requests_post := fun _ _ => TimedOut;
     json_loads := decode [];
     disk_write := Written;
     utcnow_isoformat := "2024-01-01T00:00:00";
     coerce_timestamps := fun _ => None;
     coerce_title := fun _ => None |}.

(** The engine answers 401 with an error object. *)
Definition unauthorized_text : string :=
  "{" +:+ quoted "error" +:+ ":{" +:+ quoted "message" +:+ ":"
  +:+ quoted "No auth credentials found" +:+ "}}".

Definition unauthorized : json :=
  JObj {[ "error" := JObj {[ "message" := JStr "No auth credentials found" ]} ]}.

Definition E_unauthorized : env :=
  {| OPENROUTER_API_KEY := Some "sk-or-test";
     ytt_fetch := fun _ => Snippets hello_world;
     requests_post := fun _ _ =>
       Responded {| status_code := 401; body := unauthorized_text |};
     json_loads := decode [ (unauthorized_text, unauthorized) ];
     disk_write := Written;
     utcnow_isoformat := "2024-01-01T00:00:00";
     coerce_timestamps := fun _ => None;
     coerce_title := fun _ => None |}.

(** The engine answers 200 with an empty list of choices. *)
Definition no_choice_text : string := "{" +:+ quoted "choices" +:+ ":[]}".

Definition E_no_choice : env :=
  {| OPENROUTER_API_KEY := Some "sk-or-test";
     ytt_fetch := fun _ => Snippets hello_world;
     requests_post := fun _ _ =>
       Responded {| status_code := 200; body := no_choice_text |};
     json_loads := decode [ (no_choice_text, JObj {[ "choices" := JList [] ]}) ];
     disk_write := Written;
     utcnow_isoformat := "2024-01-01T00:00:00";
     coerce_timestamps := fun _ => None;
     coerce_title := fun _ => None |}.

(** The engine answers with the highlights as a bare list. *)
Definition E_bare_list : env := engine_says "[]" "[]" [ ("[]", JList []) ].

(** The transcript service refuses. *)
Definition E_disabled : env :=
  {| OPENROUTER_API_KEY := Some "sk-or-test";
     ytt_fetch := fun _ => FetchError "Subtitles are disabled for this video";
     requests_post := fun _ _ => TimedOut;
     json_loads := decode [];
     disk_write := Written;
     utcnow_isoformat := "2024-01-01T00:00:00";
     coerce_timestamps := fun _ => None;
     coerce_title := fun _ => None |}.

(** A cache file holding a list that has the identifier as an element. *)
Definition st_list : state :=
  {| fs := Holds (JList [JStr vid]); trace := [] |}.

(** The store after one successful analysis. *)
Definition st_one : state := snd (main.post_analyze E_ok url st0).

End MoreSamples.

(** * Properties *)

(** ** Strings *)

Section string_facts.

Import PyStr.

Lemma app_cons c (s t : string) : String c s +:+ t = String c (s +:+ t).
Proof. reflexivity. Qed.

Lemma app_nil_l_str (t : string) : EmptyString +:+ t = t.
Proof. reflexivity. Qed.

Lemma app_nil_r_str (s : string) : s +:+ EmptyString = s.
Proof. induction s as [|c s IH]; [done | by rewrite app_cons, IH]. Qed.

Lemma app_assoc_str (a b c : string) : (a +:+ b) +:+ c = a +:+ (b +:+ c).
Proof. induction a as [|x a IH]; [done | by rewrite !app_cons, IH]. Qed.

Lemma length_app_str (a b : string) :
  String.length (a +:+ b) = (String.length a + String.length b)%nat.
Proof. induction a as [|x a IH]; [done | by rewrite app_cons; simpl; rewrite IH]. Qed.

Lemma strip_prefix_spec (p s r : string) :
  strip_prefix p s = Some r <-> s = p +:+ r.
Proof.
  revert s. induction p as [|a p IH]; intros s; simpl.
  - rewrite app_nil_l_str. split; [by intros [= ->] | by intros ->].
  - rewrite app_cons. destruct s as [|b s]; [split; discriminate |].
    destruct (Ascii.eqb_spec a b) as [->|Hne].
    + rewrite IH. split; [by intros -> | by intros [= ->]].
    + split; [discriminate | intros [= Hb _]; congruence].
Qed.

Lemma strip_prefix_app (p r : string) : strip_prefix p (p +:+ r) = Some r.
Proof. by apply strip_prefix_spec. Qed.

Lemma startswith_spec (s p : string) :
  startswith s p = true <-> exists r, s = p +:+ r.
Proof.
  unfold startswith. destruct (strip_prefix p s) as [r|] eqn:H.
  - apply strip_prefix_spec in H. split; [eauto | done].
  - split; [discriminate |]. intros [r Hr].
    apply strip_prefix_spec in Hr. congruence.
Qed.

(** [needle in s] holds exactly when [needle] occurs in [s]. *)
Lemma contains_spec (needle s : string) :
  contains needle s = true <-> exists pre suf, s = pre +:+ needle +:+ suf.
Proof.
  induction s as [|c s IH]; simpl.
  - destruct (startswith EmptyString needle) eqn:H.
    + apply startswith_spec in H as [r Hr]. split; [|done].
      intros _. exists EmptyString, r. done.
    + split; [discriminate |]. intros (pre & suf & Heq).
      destruct pre; [|discriminate]. rewrite app_nil_l_str in Heq.
      assert (startswith EmptyString needle = true) as Hs
        by (apply startswith_spec; eauto).
      congruence.
  - destruct (startswith (String c s) needle) eqn:H.
    + apply startswith_spec in H as [r Hr]. split; [|done].
      intros _. exists EmptyString, r. done.
    + rewrite IH. split.
      * intros (pre & suf & ->). by exists (String c pre), suf.
      * intros (pre & suf & Heq). destruct pre as [|c' pre].
        -- rewrite app_nil_l_str in Heq.
           assert (startswith (String c s) needle = true) as Hs
             by (apply startswith_spec; eauto).
           congruence.
        -- rewrite app_cons in Heq. injection Heq as _ ->. eauto.
Qed.

Lemma lower_app (a b : string) : lower (a +:+ b) = lower a +:+ lower b.
Proof. induction a as [|x a IH]; [done | by rewrite app_cons; simpl; rewrite IH]. Qed.

Lemma lower_length (a : string) : String.length (lower a) = String.length a.
Proof. induction a as [|x a IH]; simpl; [done | by rewrite IH]. Qed.

End string_facts.

(** ** Identifier extraction *)

Section extraction.

Import PyStr youtube.

Lemma take_id_spec (n : nat) (s t : string) :
  take_id n s = Some t <->
  exists suf, s = t +:+ suf /\ String.length t = n /\ all_id t = true.
Proof.
  revert s t. induction n as [|n IH]; intros s t; simpl.
  - split.
    + intros [= <-]. by exists s.
    + intros (suf & _ & Hl & _). destruct t; [done | discriminate].
  - destruct s as [|c s].
    + split; [discriminate |]. intros (suf & Heq & Hl & _).
      destruct t; [discriminate | rewrite app_cons in Heq; discriminate].
    + destruct (id_char c) eqn:Hc.
      * destruct (take_id n s) as [t'|] eqn:Ht.
        -- apply IH in Ht as (suf & -> & Hl & Ha). split.
           ++ intros [= <-]. exists suf. rewrite app_cons. simpl.
              rewrite Hc, Ha, Hl. done.
           ++ intros (suf' & Heq & Hl' & Ha'). destruct t as [|c' t]; [discriminate |].
              rewrite app_cons in Heq. injection Heq as <- Heq.
              simpl in Hl', Ha'. apply andb_prop in Ha' as [_ Ha'].
              assert (take_id n (t' +:+ suf) = Some t) as Ht2.
              { apply IH. exists suf'. repeat split; [done | lia | done]. }
              assert (take_id n (t' +:+ suf) = Some t') as Ht1.
              { apply IH. by exists suf. }
              congruence.
        -- split; [discriminate |]. intros (suf' & Heq & Hl' & Ha').
           destruct t as [|c' t]; [discriminate |].
           rewrite app_cons in Heq. injection Heq as <- Heq.
           simpl in Hl', Ha'. apply andb_prop in Ha' as [_ Ha'].
           assert (take_id n s = Some t) as Ht2.
           { apply IH. exists suf'. repeat split; [done | lia | done]. }
           congruence.
      * split; [discriminate |]. intros (suf' & Heq & Hl' & Ha').
        destruct t as [|c' t]; [discriminate |].
        rewrite app_cons in Heq. injection Heq as <- Heq.
        simpl in Ha'. rewrite Hc in Ha'. discriminate.
Qed.

Lemma match_here_spec (marker s tok : string) :
  match_here marker s = Some tok <-> shape_at marker tok EmptyString s.
Proof.
  unfold match_here, shape_at. setoid_rewrite app_nil_l_str.
  destruct (strip_prefix marker s) as [rest|] eqn:Hp.
  - apply strip_prefix_spec in Hp as ->. rewrite take_id_spec. split.
    + intros (suf & -> & Hl & Ha). by exists suf.
    + intros (suf & Heq & Hl & Ha).
      assert (strip_prefix marker (marker +:+ rest) = Some (tok +:+ suf)) as H1
        by (by apply strip_prefix_spec).
      rewrite strip_prefix_app in H1. injection H1 as ->. by exists suf.
  - split; [discriminate |]. intros (suf & -> & _).
    rewrite strip_prefix_app in Hp. discriminate.
Qed.

Lemma shape_at_cons (marker tok pre s : string) (c c' : ascii) :
  shape_at marker tok (String c pre) (String c' s) <->
  c = c' /\ shape_at marker tok pre s.
Proof.
  unfold shape_at. split.
  - intros (suf & Heq & Hl & Ha). rewrite app_cons in Heq.
    injection Heq as <- ->. split; [done | by exists suf].
  - intros [<- (suf & -> & Hl & Ha)]. exists suf. by rewrite app_cons.
Qed.

Lemma shape_at_empty (marker tok pre : string) (c : ascii) :
  ~ shape_at marker tok (String c pre) EmptyString.
Proof. intros (suf & Heq & _). rewrite app_cons in Heq. discriminate. Qed.

Lemma re_search_None (marker s : string) :
  re_search marker s = None <-> ~ has_shape marker s.
Proof.
  induction s as [|c s IH]; simpl.
  - destruct (match_here marker EmptyString) as [t|] eqn:Hm.
    + split; [discriminate |]. intros Hn. exfalso. apply Hn.
      exists EmptyString, t. by apply match_here_spec.
    + split; [|done]. intros _ (pre & tok & Hs). destruct pre.
      * apply match_here_spec in Hs. congruence.
      * by apply shape_at_empty in Hs.
  - destruct (match_here marker (String c s)) as [t|] eqn:Hm.
    + split; [discriminate |]. intros Hn. exfalso. apply Hn.
      exists EmptyString, t. by apply match_here_spec.
    + rewrite IH. split.
      * intros Hn (pre & tok & Hs). destruct pre.
        -- apply match_here_spec in Hs. congruence.
        -- apply shape_at_cons in Hs as [_ Hs]. apply Hn. by exists pre, tok.
      * intros Hn (pre & tok & Hs). apply Hn.
        exists (String c pre), tok. by apply shape_at_cons.
Qed.

Lemma leftmost_here (marker s t tok : string) :
  match_here marker s = Some t ->
  leftmost_shape marker tok s <-> tok = t.
Proof.
  intros Hm. split.
  - intros (pre & Hs & Hmin).
    specialize (Hmin EmptyString t (proj1 (match_here_spec _ _ _) Hm)).
    destruct pre; [|simpl in Hmin; lia].
    apply match_here_spec in Hs. congruence.
  - intros ->. exists EmptyString. split; [by apply match_here_spec |].
    intros; simpl; lia.
Qed.

Lemma leftmost_later (marker s tok : string) (c : ascii) :
  match_here marker (String c s) = None ->
  leftmost_shape marker tok (String c s) <-> leftmost_shape marker tok s.
Proof.
  intros Hm. split.
  - intros (pre & Hs & Hmin). destruct pre as [|c' pre].
    + apply match_here_spec in Hs. congruence.
    + apply shape_at_cons in Hs as [-> Hs]. exists pre. split; [done |].
      intros pre' tok' Hs'.
      specialize (Hmin (String c pre') tok'
                    (proj2 (shape_at_cons _ _ _ _ _ _) (conj eq_refl Hs'))).
      simpl in Hmin. lia.
  - intros (pre & Hs & Hmin). exists (String c pre).
    split; [by apply shape_at_cons |].
    intros pre' tok' Hs'. destruct pre' as [|c' pre'].
    + apply match_here_spec in Hs'. congruence.
    + apply shape_at_cons in Hs' as [_ Hs']. specialize (Hmin _ _ Hs').
      simpl. lia.
Qed.

(** [re.search] returns the token of the leftmost occurrence. *)
Lemma re_search_Some (marker s tok : string) :
  re_search marker s = Some tok <-> leftmost_shape marker tok s.
Proof.
  induction s as [|c s IH]; simpl.
  - destruct (match_here marker EmptyString) as [t|] eqn:Hm.
    + rewrite (leftmost_here _ _ _ _ Hm). split; congruence.
    + split; [discriminate |]. intros (pre & Hs & _). destruct pre.
      * apply match_here_spec in Hs. congruence.
      * by apply shape_at_empty in Hs.
  - destruct (match_here marker (String c s)) as [t|] eqn:Hm.
    + rewrite (leftmost_here _ _ _ _ Hm). split; congruence.
    + by rewrite IH, leftmost_later.
Qed.

End extraction.

Section extraction_urls.

Import PyStr youtube.

Lemma all_id_app (a b : string) : all_id (a +:+ b) = all_id a && all_id b.
Proof.
  induction a as [|c a IH]; [done |].
  rewrite app_cons. simpl. rewrite IH. by rewrite andb_assoc.
Qed.

Lemma take_id_app (tok suf : string) :
  all_id tok = true ->
  take_id (String.length tok) (tok +:+ suf) = Some tok.
Proof. intros Ha. apply take_id_spec. by exists suf. Qed.

(** A marker with a character outside the alphabet never matches inside a
    run of identifier characters. *)
Lemma re_search_all_id (marker s : string) :
  all_id marker = false -> all_id s = true -> re_search marker s = None.
Proof.
  intros Hm. induction s as [|c s IH]; intros Hs; simpl.
  - unfold match_here. destruct (strip_prefix marker EmptyString) eqn:Hp; [|done].
    apply strip_prefix_spec in Hp. destruct marker; [done | discriminate].
  - unfold match_here.
    destruct (strip_prefix marker (String c s)) as [r|] eqn:Hp.
    + apply strip_prefix_spec in Hp. rewrite Hp, all_id_app, Hm in Hs. done.
    + simpl in Hs. apply andb_prop in Hs as [_ Hs]. by apply IH.
Qed.

Lemma extract_watch_url (tok suf : string) :
  String.length tok = 11%nat -> all_id tok = true ->
  extract_video_id (watch_url tok +:+ suf) = Some tok.
Proof.
  intros Hl Ha. unfold extract_video_id, watch_url, patterns, first_match.
  rewrite app_assoc_str. rewrite !app_cons, app_nil_l_str. simpl re_search.
  unfold match_here at 1. simpl strip_prefix.
  rewrite <- Hl, take_id_app; done.
Qed.

Lemma extract_short_url (tok : string) :
  String.length tok = 11%nat -> all_id tok = true ->
  extract_video_id (short_url tok) = Some tok.
Proof.
  intros Hl Ha. unfold extract_video_id, short_url, patterns, first_match.
  rewrite !app_cons, app_nil_l_str.
  assert (re_search "youtube.com/watch?v=" tok = None) as Hw
    by (by apply re_search_all_id).
  simpl re_search. rewrite Hw.
  unfold match_here at 1. simpl strip_prefix.
  rewrite <- (app_nil_r_str tok) at 1. rewrite <- Hl, take_id_app; done.
Qed.

Lemma extract_embed_url (tok : string) :
  String.length tok = 11%nat -> all_id tok = true ->
  extract_video_id (embed_url tok) = Some tok.
Proof.
  intros Hl Ha. unfold extract_video_id, embed_url, patterns, first_match.
  rewrite !app_cons, app_nil_l_str.
  assert (re_search "youtube.com/watch?v=" tok = None) as Hw
    by (by apply re_search_all_id).
  assert (re_search "youtu.be/" tok = None) as Hs
    by (by apply re_search_all_id).
  simpl re_search. rewrite Hw, Hs.
  unfold match_here at 1. simpl strip_prefix.
  rewrite <- (app_nil_r_str tok) at 1. rewrite <- Hl, take_id_app; done.
Qed.

Lemma extract_video_id_spec (url : string) :
  extract_video_id url =
    match re_search watch_marker url with
    | Some t => Some t
    | None =>
        match re_search short_marker url with
        | Some t => Some t
        | None => re_search embed_marker url
        end
    end.
Proof.
  unfold extract_video_id, patterns, first_match.
  change "youtube.com/watch?v=" with watch_marker.
  change "youtu.be/" with short_marker.
  change "youtube.com/embed/" with embed_marker.
  by repeat case_match.
Qed.

(** C8: for an 11-character token of the identifier alphabet, the watch-page
    URL (with any trailing text), the short-link URL and the embed-player URL
    built around it all extract that token; for any string, the result is the
    token of the leftmost occurrence of the first shape, in the order watch,
    short-link, embed, that occurs at all; and the result is [None], returned
    as a value, exactly when no shape occurs. *)
Theorem C8_extract_video_id (tok : string) :
  String.length tok = 11%nat -> all_id tok = true ->
  (forall suf, extract_video_id (watch_url tok +:+ suf) = Some tok)
  /\ extract_video_id (short_url tok) = Some tok
  /\ extract_video_id (embed_url tok) = Some tok
  /\ (forall url t,
        extract_video_id url = Some t <->
        leftmost_shape watch_marker t url
        \/ (~ has_shape watch_marker url /\ leftmost_shape short_marker t url)
        \/ (~ has_shape watch_marker url /\ ~ has_shape short_marker url
            /\ leftmost_shape embed_marker t url))
  /\ (forall url,
        extract_video_id url = None <->
        ~ has_shape watch_marker url /\ ~ has_shape short_marker url
        /\ ~ has_shape embed_marker url).
Proof.
  intros Hl Ha. split; [|split; [|split; [|split]]].
  - intros suf. by apply extract_watch_url.
  - by apply extract_short_url.
  - by apply extract_embed_url.
  - intros url t. rewrite extract_video_id_spec.
    rewrite <- !re_search_Some, <- !re_search_None.
    destruct (re_search watch_marker url) as [a|];
      destruct (re_search short_marker url) as [b|];
      destruct (re_search embed_marker url) as [c|]; intuition congruence.
  - intros url. rewrite extract_video_id_spec, <- !re_search_None.
    destruct (re_search watch_marker url) as [a|];
      destruct (re_search short_marker url) as [b|];
      destruct (re_search embed_marker url) as [c|]; intuition congruence.
Qed.

Lemma C8_witness :
  extract_video_id "https://www.youtube.com/watch?v=dQw4w9WgXcQ&t=42s" = Some "dQw4w9WgXcQ"
  /\ extract_video_id "https://youtu.be/dQw4w9WgXcQ" = Some "dQw4w9WgXcQ"
  /\ extract_video_id "https://www.youtube.com/embed/dQw4w9WgXcQ" = Some "dQw4w9WgXcQ".
Proof.
  destruct (C8_extract_video_id "dQw4w9WgXcQ" eq_refl eq_refl)
    as (Hw & Hs & He & _).
  split; [exact (Hw "&t=42s") | split; [exact Hs | exact He]].
Defined.

End extraction_urls.

(** ** The cache store *)

Section cache_store.

Import database.

Lemma load_cache_run (st : state) :
  _load_cache st =
    (match fs st with
     | Inaccessible msg => Raise (OtherException msg)
     | f => Return (loaded f)
     end, st).
Proof. unfold _load_cache, bind, read_file. simpl. by destruct (fs st). Qed.

Lemma load_cache_dict (st : state) (m : gmap string json) :
  loaded (fs st) = JObj m -> _load_cache st = (Return (JObj m), st).
Proof.
  intros Hm. rewrite load_cache_run.
  destruct (fs st); simpl in *; by rewrite ?Hm.
Qed.

(** [get] reads only. *)
Lemma get_cached_analysis_state (k : string) (st : state) :
  snd (get_cached_analysis k st) = st.
Proof.
  unfold get_cached_analysis, try_except, bind. rewrite load_cache_run.
  destruct (fs st) as [| |c|msg]; cbn [loaded]; [| | |done].
  - generalize (JObj (∅ : gmap string json)). intros c.
    destruct c as [| | | | s0 |l|m]; simpl; try done.
    + by destruct (PyStr.contains k s0).
    + by destruct (existsb _ l).
    + case_bool_decide as Hk; simpl; [|done].
      destruct Hk as [v Hv]. by rewrite Hv.
  - generalize (JObj (∅ : gmap string json)). intros c.
    destruct c as [| | | | s0 |l|m]; simpl; try done.
    + by destruct (PyStr.contains k s0).
    + by destruct (existsb _ l).
    + case_bool_decide as Hk; simpl; [|done].
      destruct Hk as [v Hv]. by rewrite Hv.
  - destruct c as [| | | | s0 |l|m]; simpl; try done.
    + by destruct (PyStr.contains k s0).
    + by destruct (existsb _ l).
    + case_bool_decide as Hk; simpl; [|done].
      destruct Hk as [v Hv]. by rewrite Hv.
Qed.

Lemma get_cached_analysis_raises_nothing (k : string) (st : state) :
  exists r, fst (get_cached_analysis k st) = Return r.
Proof.
  unfold get_cached_analysis, try_except, bind. rewrite load_cache_run.
  destruct (fs st) as [| |c|msg]; cbn [loaded]; [| | |simpl; eauto].
  - generalize (JObj (∅ : gmap string json)). intros c.
    destruct c as [| | | | s0 |l|m]; simpl; eauto.
    + destruct (PyStr.contains k s0); simpl; eauto.
    + destruct (existsb _ l); simpl; eauto.
    + case_bool_decide as Hk; simpl; eauto.
      destruct Hk as [v Hv]. rewrite Hv. simpl. eauto.
  - generalize (JObj (∅ : gmap string json)). intros c.
    destruct c as [| | | | s0 |l|m]; simpl; eauto.
    + destruct (PyStr.contains k s0); simpl; eauto.
    + destruct (existsb _ l); simpl; eauto.
    + case_bool_decide as Hk; simpl; eauto.
      destruct Hk as [v Hv]. rewrite Hv. simpl. eauto.
  - destruct c as [| | | | s0 |l|m]; simpl; eauto.
    + destruct (PyStr.contains k s0); simpl; eauto.
    + destruct (existsb _ l); simpl; eauto.
    + case_bool_decide as Hk; simpl; eauto.
      destruct Hk as [v Hv]. rewrite Hv. simpl. eauto.
Qed.

Lemma stored_dict (st : state) (m : gmap string json) (k : string) :
  loaded (fs st) = JObj m -> stored st k = m !! k.
Proof.
  intros Hm. unfold stored, get_cached_analysis, try_except, bind.
  rewrite (load_cache_dict _ _ Hm). simpl.
  case_bool_decide as Hk; simpl.
  - destruct Hk as [v Hv]. by rewrite Hv.
  - destruct (m !! k) eqn:Hl; [|done]. exfalso. apply Hk. eauto.
Qed.

(** Nothing is found in a cache file that does not hold a mapping. *)
Lemma stored_not_dict (st : state) (k : string) :
  (forall m, loaded (fs st) <> JObj m) -> stored st k = None.
Proof.
  intros Hm. unfold stored, get_cached_analysis, try_except, bind.
  rewrite load_cache_run.
  destruct (fs st) as [| |c|msg]; cbn [loaded] in *;
    [by destruct (Hm ∅) | by destruct (Hm ∅) | | done].
  destruct c as [| | | | s0 |l|m]; simpl; try done.
  - by destruct (PyStr.contains k s0).
  - by destruct (existsb _ l).
  - by destruct (Hm m).
Qed.

Lemma stored_fs (st st' : state) (k : string) :
  fs st = fs st' -> stored st k = stored st' k.
Proof.
  intros Hf. unfold stored, get_cached_analysis, try_except, bind.
  rewrite !load_cache_run, Hf.
  destruct (fs st') as [| |c|msg]; cbn [loaded]; [| | |done].
  - generalize (JObj (∅ : gmap string json)). intros c.
    destruct c as [| | | | s0 |l|m]; simpl; try done.
    + by destruct (PyStr.contains k s0).
    + by destruct (existsb _ l).
    + case_bool_decide as Hk; simpl; [|done].
      destruct Hk as [v Hv]. by rewrite Hv.
  - generalize (JObj (∅ : gmap string json)). intros c.
    destruct c as [| | | | s0 |l|m]; simpl; try done.
    + by destruct (PyStr.contains k s0).
    + by destruct (existsb _ l).
    + case_bool_decide as Hk; simpl; [|done].
      destruct Hk as [v Hv]. by rewrite Hv.
  - destruct c as [| | | | s0 |l|m]; simpl; try done.
    + by destruct (PyStr.contains k s0).
    + by destruct (existsb _ l).
    + case_bool_decide as Hk; simpl; [|done].
      destruct Hk as [v Hv]. by rewrite Hv.
Qed.

(** [put] on a file that reads as a mapping: the result is success whatever
    the disk does. *)
Lemma save_analysis_dict (E : env) (k title : string) (ts : json)
    (st : state) (m : gmap string json) :
  loaded (fs st) = JObj m ->
  save_analysis E k title ts st =
    (Return SaveOk,
     match disk_write E with
     | Written =>
         {| fs := Holds (JObj (<[k := record E k title ts]> m));
            trace := trace st |}
     | OpenFailed msg =>
         {| fs := fs st;
            trace := trace st ++ [EvPrint (Text ("Failed to save cache: " +:+ msg))] |}
     | DumpFailed msg =>
         {| fs := Unreadable;
            trace := trace st ++ [EvPrint (Text ("Failed to save cache: " +:+ msg))] |}
     end).
Proof.
  intros Hm. unfold save_analysis, try_except, bind.
  rewrite (load_cache_dict _ _ Hm). simpl. unfold _save_cache.
  by destruct (disk_write E).
Qed.

(** [put] on a file from which no mapping is loaded: the load or the
    assignment raises, the failure is returned and the file is not touched. *)
Lemma save_analysis_not_dict (E : env) (k title : string) (ts : json) (st : state) :
  (forall m, loaded (fs st) <> JObj m) ->
  exists err, save_analysis E k title ts st = (Return (SaveFailed err), st).
Proof.
  intros Hm. unfold save_analysis, try_except, bind.
  rewrite load_cache_run.
  destruct (fs st) as [| |c|msg]; cbn [loaded] in *;
    [by destruct (Hm ∅) | by destruct (Hm ∅) | | simpl; eauto].
  destruct c as [| | | | s0 |l|m]; simpl; eauto.
  by destruct (Hm m).
Qed.

Lemma loaded_cases (f : cache_file) :
  (exists m, loaded f = JObj m) \/ (forall m, loaded f <> JObj m).
Proof. destruct (loaded f); eauto; right; done. Qed.

End cache_store.

Section cache_store_round_trip.

Import database.

Lemma get_cached_analysis_dict (st : state) (m : gmap string json) (k : string) :
  loaded (fs st) = JObj m ->
  fst (get_cached_analysis k st) =
    Return (match m !! k with Some v => Found v | None => NotFound end).
Proof.
  intros Hm. unfold get_cached_analysis, try_except, bind.
  rewrite (load_cache_dict _ _ Hm). simpl.
  case_bool_decide as Hk; simpl.
  - destruct Hk as [v Hv]. by rewrite Hv.
  - destruct (m !! k) eqn:Hl; [|done]. exfalso. apply Hk. eauto.
Qed.

Lemma record_fields (E : env) (k title : string) (ts : json) :
  exists m, record E k title ts = JObj m
    /\ m !! "video_id" = Some (JStr k)
    /\ m !! "video_title" = Some (JStr title)
    /\ m !! "timestamps" = Some ts
    /\ m !! "created_at" = Some (JStr (utcnow_isoformat E))
    /\ forall f, is_Some (m !! f) ->
         f = "video_id" \/ f = "video_title" \/ f = "timestamps" \/ f = "created_at".
Proof.
  eexists. split; [reflexivity |].
  repeat split; try by simplify_map_eq.
  intros f [v Hv].
  destruct (decide (f = "video_id")) as [|H1]; [by left |].
  destruct (decide (f = "video_title")) as [|H2]; [by right; left |].
  destruct (decide (f = "timestamps")) as [|H3]; [by right; right; left |].
  destruct (decide (f = "created_at")) as [|H4]; [by right; right; right |].
  by simplify_map_eq.
Qed.

(** C3, the code at a failing write: [save_analysis] returns the success
    result although the disk refused the write, and the file is left as it
    was or unreadable; the failure is printed by [_save_cache] and never
    reaches the caller. *)
Theorem C3_save_analysis_success_on_failed_write
    (E : env) (k title : string) (ts : json) (st : state) :
  disk_write E <> Written ->
  (exists m, loaded (fs st) = JObj m) ->
  fst (save_analysis E k title ts st) = Return SaveOk
  /\ (fs (snd (save_analysis E k title ts st)) = fs st
      \/ fs (snd (save_analysis E k title ts st)) = Unreadable)
  /\ exists msg,
       trace (snd (save_analysis E k title ts st)) =
         (trace st ++ [EvPrint (Text ("Failed to save cache: " +:+ msg))])%list.
Proof.
  intros Hw [m Hm]. rewrite (save_analysis_dict _ _ _ _ _ _ Hm).
  destruct (disk_write E) as [|msg|msg]; [done | |]; simpl; eauto.
Qed.

Lemma C3_witness :
  let E := with_disk (OpenFailed "[Errno 13] Permission denied") Samples.E_ok in
  let st := Samples.st0 in
  fst (save_analysis E Samples.vid (main.title_of Samples.vid)
         (JList [Samples.opening_item]) st) = Return SaveOk
  /\ fs (snd (save_analysis E Samples.vid (main.title_of Samples.vid)
                (JList [Samples.opening_item]) st)) = Missing.
Proof.
  intros E st.
  destruct (C3_save_analysis_success_on_failed_write E Samples.vid
              (main.title_of Samples.vid) (JList [Samples.opening_item]) st)
    as (Hr & _ & _).
  - discriminate.
  - exists ∅. reflexivity.
  - split; [exact Hr | reflexivity].
Defined.

(** C4: when [put] wrote the record (it returned success and the disk took
    the write), [get] for the same identifier finds an entry whose identifier,
    title and highlight list are the ones written, in the same order, with the
    creation time fixed at the write and no other field. *)
Theorem C4_put_get_round_trip
    (E : env) (k title : string) (ts : json) (st : state) :
  disk_write E = Written ->
  fst (save_analysis E k title ts st) = Return SaveOk ->
  exists m,
    fst (get_cached_analysis k (snd (save_analysis E k title ts st)))
      = Return (Found (JObj m))
    /\ m !! "video_id" = Some (JStr k)
    /\ m !! "video_title" = Some (JStr title)
    /\ m !! "timestamps" = Some ts
    /\ m !! "created_at" = Some (JStr (utcnow_isoformat E))
    /\ forall f, is_Some (m !! f) ->
         f = "video_id" \/ f = "video_title" \/ f = "timestamps" \/ f = "created_at".
Proof.
  intros Hw Hok. destruct (loaded_cases (fs st)) as [[c Hc]|Hn].
  - rewrite (save_analysis_dict _ _ _ _ _ _ Hc), Hw. simpl.
    destruct (record_fields E k title ts) as (m & Hrec & Hfields).
    exists m. split; [|exact Hfields].
    erewrite get_cached_analysis_dict by reflexivity.
    by rewrite lookup_insert_eq, Hrec.
  - destruct (save_analysis_not_dict E k title ts st Hn) as [err Herr].
    rewrite Herr in Hok. discriminate.
Qed.

Lemma C4_witness :
  exists m,
    fst (get_cached_analysis Samples.vid
           (snd (save_analysis Samples.E_ok Samples.vid (main.title_of Samples.vid)
                   (JList [Samples.opening_item]) Samples.st0)))
      = Return (Found (JObj m))
    /\ m !! "video_title" = Some (JStr "YouTube Video (dQw4w9WgXcQ)")
    /\ m !! "timestamps" = Some (JList [Samples.opening_item]).
Proof.
  destruct (C4_put_get_round_trip Samples.E_ok Samples.vid
              (main.title_of Samples.vid) (JList [Samples.opening_item])
              Samples.st0 eq_refl eq_refl)
    as (m & Hget & _ & Ht & Hts & _).
  exists m. split; [exact Hget | split; [exact Ht | exact Hts]].
Defined.

End cache_store_round_trip.

Section cache_invariant.

Import database.

Lemma store_ok_fs (st st' : state) : fs st = fs st' -> store_ok st -> store_ok st'.
Proof.
  intros Hf Hok k data Hs. apply Hok. by rewrite (stored_fs st st' k Hf).
Qed.

Lemma store_ok_empty (st : state) : loaded (fs st) = JObj ∅ -> store_ok st.
Proof.
  intros Hl k data Hs. rewrite (stored_dict _ _ _ Hl), lookup_empty in Hs.
  discriminate.
Qed.

Lemma store_ok_put (E : env) (k title : string) (ts : json) (st : state) :
  store_ok st -> store_ok (apply_op (Put E k title ts) st).
Proof.
  intros Hok. simpl. destruct (loaded_cases (fs st)) as [[m Hm]|Hn].
  - rewrite (save_analysis_dict _ _ _ _ _ _ Hm).
    destruct (disk_write E) as [|msg|msg]; simpl.
    + intros k' data Hs.
      rewrite (stored_dict _ (<[k := record E k title ts]> m)) in Hs by done.
      destruct (decide (k = k')) as [<-|Hne].
      * rewrite lookup_insert_eq in Hs. injection Hs as <-.
        destruct (record_fields E k title ts) as (r & -> & Hid & _).
        by exists r.
      * rewrite lookup_insert_ne in Hs by done.
        apply Hok. by rewrite (stored_dict _ _ _ Hm).
    + by apply (store_ok_fs st).
    + by apply store_ok_empty.
  - destruct (save_analysis_not_dict E k title ts st Hn) as [err ->]. done.
Qed.

Lemma store_ok_step (op : store_op) (st : state) :
  store_ok st -> store_ok (apply_op op st).
Proof.
  destruct op as [E k title ts|k]; [apply store_ok_put |].
  simpl. by rewrite get_cached_analysis_state.
Qed.

Lemma store_ok_run (ops : list store_op) (st : state) :
  store_ok st -> store_ok (run_ops ops st).
Proof.
  revert st. induction ops as [|op ops IH]; intros st Hok; [done |].
  simpl. apply IH. by apply store_ok_step.
Qed.

(** After a [put], the entry under its key is the new record, the entry that
    was there, or none. *)
Lemma put_whole (st : state) (E : env) (k title : string) (ts : json) :
  let st' := apply_op (Put E k title ts) st in
  stored st' k = Some (record E k title ts)
  \/ stored st' k = stored st k
  \/ stored st' k = None.
Proof.
  simpl. destruct (loaded_cases (fs st)) as [[m Hm]|Hn].
  - rewrite (save_analysis_dict _ _ _ _ _ _ Hm).
    destruct (disk_write E) as [|msg|msg]; simpl.
    + left. rewrite (stored_dict _ (<[k := record E k title ts]> m)) by done.
      apply lookup_insert_eq.
    + right; left. by apply stored_fs.
    + right; right. rewrite (stored_dict _ ∅) by done. apply lookup_empty.
  - destruct (save_analysis_not_dict E k title ts st Hn) as [err ->].
    by right; left.
Qed.

(** C9: a store in which every entry found under a key is a record whose
    identifier field is that key stays so under any sequence of [put] and
    [get], whatever the disk does at each write; a key has at most one entry;
    after a [put] the entry under its key is the new record as a whole, or
    the entry that was there, or none, never a mix of old and new; and a
    [put] the disk takes for an existing key leaves exactly the new record
    under it and every other key as it was. *)
Theorem C9_store_invariant (ops : list store_op) (st : state) :
  store_ok st ->
  store_ok (run_ops ops st)
  /\ (forall k d1 d2,
        stored (run_ops ops st) k = Some d1 ->
        stored (run_ops ops st) k = Some d2 -> d1 = d2)
  /\ (forall E k title ts,
        let st' := apply_op (Put E k title ts) (run_ops ops st) in
        stored st' k = Some (record E k title ts)
        \/ stored st' k = stored (run_ops ops st) k
        \/ stored st' k = None)
  /\ (forall E k title ts old,
        stored (run_ops ops st) k = Some old ->
        disk_write E = Written ->
        let st' := apply_op (Put E k title ts) (run_ops ops st) in
        stored st' k = Some (record E k title ts)
        /\ forall k', k' <> k -> stored st' k' = stored (run_ops ops st) k').
Proof.
  intros Hok. split; [by apply store_ok_run |]. split; [congruence |].
  split; [apply put_whole |].
  intros E k title ts old Hold Hw. simpl.
  destruct (loaded_cases (fs (run_ops ops st))) as [[m Hm]|Hn].
  - rewrite (save_analysis_dict _ _ _ _ _ _ Hm), Hw. split.
    + rewrite (stored_dict _ (<[k := record E k title ts]> m)) by done.
      apply lookup_insert_eq.
    + intros k' Hne.
      rewrite (stored_dict _ (<[k := record E k title ts]> m)) by done.
      rewrite (stored_dict _ _ _ Hm). by apply lookup_insert_ne.
  - rewrite (stored_not_dict _ _ Hn) in Hold. discriminate.
Qed.

Lemma C9_witness :
  let ops := [ Put Samples.E_ok Samples.vid "first title" (JList []);
               Get Samples.vid;
               Put (with_disk (DumpFailed "[Errno 28] No space left on device") Samples.E_ok)
                   "AAAAAAAAAAA" "lost" (JList []);
               Put Samples.E_ok Samples.vid "second title" (JList [Samples.opening_item]) ] in
  store_ok Samples.st0 /\ store_ok (run_ops ops Samples.st0).
Proof.
  intros ops.
  assert (store_ok Samples.st0) as Hok
    by (intros k data H; vm_compute in H; discriminate).
  split; [exact Hok |].
  exact (proj1 (C9_store_invariant ops Samples.st0 Hok)).
Defined.

End cache_invariant.

(** ** The request handlers *)

Section handlers.

Import youtube ai database main.

Lemma bind_run {A B} (m : M A) (k : A -> M B) (st : state) :
  bind m k st =
    match m st with
    | (Return a, st') => k a st'
    | (Raise e, st') => (Raise e, st')
    end.
Proof. reflexivity. Qed.

Lemma get_cached_analysis_run (k : string) (st : state) :
  get_cached_analysis k st =
    (Return (match stored st k with Some d => Found d | None => NotFound end), st).
Proof.
  pose proof (get_cached_analysis_state k st) as Hs.
  destruct (get_cached_analysis_raises_nothing k st) as [r Hr].
  unfold stored. destruct (get_cached_analysis k st) as [o s].
  simpl in *. subst. by destruct r.
Qed.

Lemma stored_found (k : string) (st : state) (data : json) :
  fst (get_cached_analysis k st) = Return (Found data) <-> stored st k = Some data.
Proof.
  rewrite get_cached_analysis_run. simpl.
  destruct (stored st k); split; congruence.
Qed.

Lemma stored_not_found (k : string) (st : state) :
  fst (get_cached_analysis k st) = Return NotFound <-> stored st k = None.
Proof.
  rewrite get_cached_analysis_run. simpl.
  destruct (stored st k); split; congruence.
Qed.

(** An extracted identifier has eleven characters of the alphabet. *)
Lemma extract_video_id_token (url vid : string) :
  extract_video_id url = Some vid ->
  String.length vid = 11%nat /\ all_id vid = true.
Proof.
  rewrite extract_video_id_spec. intros H.
  assert (exists marker, leftmost_shape marker vid url) as [marker Hl].
  { destruct (re_search watch_marker url) eqn:H1.
    - injection H as ->. exists watch_marker. by apply re_search_Some.
    - destruct (re_search short_marker url) eqn:H2.
      + injection H as ->. exists short_marker. by apply re_search_Some.
      + exists embed_marker. by apply re_search_Some. }
  destruct Hl as (pre & (suf & _ & Hlen & Hid) & _). done.
Qed.

Lemma extract_video_id_truthy (url vid : string) :
  extract_video_id url = Some vid -> Py.truthy (Some vid) = true.
Proof.
  intros H. apply extract_video_id_token in H as [Hl _].
  destruct vid; [discriminate | done].
Qed.

Lemma fetch_transcript_run (E : env) (vid : string) (st : state) :
  fetch_transcript E vid st =
    (Return match ytt_fetch E vid with
            | Snippets l => FetchOk l (PyStr.join " " (map text l))
            | FetchError msg => FetchFailed (classify msg)
            end,
     {| fs := fs st; trace := trace st ++ [EvFetch vid] |}).
Proof.
  unfold fetch_transcript. rewrite bind_run. simpl.
  by destruct (ytt_fetch E vid).
Qed.

(** The handler up to the cache lookup. *)
Lemma analyze_video_invalid (E : env) (url : string) (st : state) :
  extract_video_id url = None ->
  analyze_video E url st =
    (Raise (HTTPException 400
       (Text "Invalid YouTube URL. Please provide a valid YouTube video link.")), st).
Proof. intros H. unfold analyze_video. by rewrite H. Qed.

Lemma analyze_video_hit (E : env) (url vid : string) (st : state) (data : json) :
  extract_video_id url = Some vid ->
  stored st vid = Some data ->
  analyze_video E url st =
    (do video_title <- Py.get data "video_title" (JStr "Unknown");
     do timestamps <- Py.get data "timestamps" (JList []);
     new_AnalyzeResponse E vid video_title timestamps true) st.
Proof.
  intros He Hs. unfold analyze_video.
  rewrite He, (extract_video_id_truthy _ _ He). cbn [negb from_option id].
  by rewrite bind_run, get_cached_analysis_run, Hs.
Qed.

Lemma analyze_video_miss (E : env) (url vid : string) (st : state) :
  extract_video_id url = Some vid ->
  stored st vid = None ->
  analyze_video E url st =
    match ytt_fetch E vid with
    | FetchError msg =>
        (Raise (HTTPException 400 (classify msg)),
         {| fs := fs st; trace := trace st ++ [EvFetch vid] |})
    | Snippets l =>
        (do ai_result <- analyze_transcript E (PyStr.join " " (map text l)) l;
         match ai_result with
         | AiFailed error => raise (HTTPException 500 error)
         | AiOk timestamps =>
             run save_analysis E vid (title_of vid) timestamps;
             new_AnalyzeResponse E vid (JStr (title_of vid)) timestamps false
         end) {| fs := fs st; trace := trace st ++ [EvFetch vid] |}
    end.
Proof.
  intros He Hs. unfold analyze_video.
  rewrite He, (extract_video_id_truthy _ _ He). cbn [negb from_option id].
  rewrite bind_run, get_cached_analysis_run, Hs.
  rewrite bind_run, fetch_transcript_run.
  by destruct (ytt_fetch E vid).
Qed.

End handlers.

Section persistence.

Import youtube ai database main.

Lemma save_analysis_returns (E : env) (k title : string) (ts : json) (st : state) :
  exists r st', save_analysis E k title ts st = (Return r, st').
Proof.
  destruct (loaded_cases (fs st)) as [[m Hm]|Hn].
  - rewrite (save_analysis_dict _ _ _ _ _ _ Hm). eauto.
  - destruct (save_analysis_not_dict E k title ts st Hn) as [err ->]. eauto.
Qed.

(** Building the response reads neither the file nor the trace. *)
Lemma new_AnalyzeResponse_run (E : env) (vid : string) (title ts : json)
    (c : bool) (st : state) :
  new_AnalyzeResponse E vid title ts c st =
    (match validate_title E title, validate_timestamps E ts with
     | Some t, Some items =>
         Return {| success := true; video_id := Some vid; video_title := t;
                   timestamps := items; cached := c; error := None |}
     | _, _ => Raise ValidationError
     end, st).
Proof.
  unfold new_AnalyzeResponse.
  by destruct (validate_title E title), (validate_timestamps E ts).
Qed.

(** Steps 5 and 6: the response after the save, whatever the save did. *)
Lemma respond_after_save (E : env) (vid : string) (ts : json) (st : state) :
  fst ((run save_analysis E vid (title_of vid) ts;
        new_AnalyzeResponse E vid (JStr (title_of vid)) ts false) st) =
    match validate_timestamps E ts with
    | Some items =>
        Return {| success := true; video_id := Some vid;
                  video_title := Some (title_of vid);
                  timestamps := items; cached := false; error := None |}
    | None => Raise ValidationError
    end.
Proof.
  rewrite bind_run.
  destruct (save_analysis_returns E vid (title_of vid) ts st) as (r & st' & ->).
  rewrite new_AnalyzeResponse_run. simpl.
  by destruct (validate_timestamps E ts).
Qed.

(** The response of [POST /api/analyze] does not depend on what the disk
    does with the write. *)
Lemma post_analyze_any_disk (E : env) (url : string) (st : state)
    (w1 w2 : write_outcome) :
  fst (post_analyze (with_disk w1 E) url st)
  = fst (post_analyze (with_disk w2 E) url st).
Proof.
  unfold post_analyze, serve.
  destruct (extract_video_id url) as [vid|] eqn:He.
  - destruct (stored st vid) as [data|] eqn:Hs.
    + by rewrite !(analyze_video_hit _ _ _ _ _ He Hs).
    + rewrite !(analyze_video_miss _ _ _ _ He Hs).
      change (ytt_fetch (with_disk w1 E)) with (ytt_fetch E).
      change (ytt_fetch (with_disk w2 E)) with (ytt_fetch E).
      destruct (ytt_fetch E vid) as [l|msg]; [|done].
      rewrite !bind_run.
      change (analyze_transcript (with_disk w1 E)) with (analyze_transcript E).
      change (analyze_transcript (with_disk w2 E)) with (analyze_transcript E).
      destruct (analyze_transcript E _ l _) as [[[ts|err]|e] st2]; [|done..].
      pose proof (respond_after_save (with_disk w1 E) vid ts st2) as H1.
      pose proof (respond_after_save (with_disk w2 E) vid ts st2) as H2.
      change (validate_timestamps (with_disk w1 E)) with (validate_timestamps E) in H1.
      change (validate_timestamps (with_disk w2 E)) with (validate_timestamps E) in H2.
      destruct ((run save_analysis (with_disk w1 E) vid (title_of vid) ts;
                 new_AnalyzeResponse (with_disk w1 E) vid (JStr (title_of vid)) ts false) st2)
        as [o1 s1].
      destruct ((run save_analysis (with_disk w2 E) vid (title_of vid) ts;
                 new_AnalyzeResponse (with_disk w2 E) vid (JStr (title_of vid)) ts false) st2)
        as [o2 s2].
      simpl in H1, H2. subst o1 o2.
      by destruct (validate_timestamps E ts).
  - by rewrite !(analyze_video_invalid _ _ _ He).
Qed.

(** C1: when extraction, the cache lookup (a miss), the transcript fetch and
    the analysis succeed and the engine's list is a list of highlights, one
    the response model takes, the response is a 200 carrying the identifier,
    the synthesized title, those highlights and cached = false, whatever the
    disk does with the write; and on any request, with no condition at all,
    the response is the same for any two behaviours of the disk: a failed
    write never changes the outcome. *)
Theorem C1_response_despite_failed_write
    (E : env) (url vid text : string) (segs : list segment) (ts : json)
    (items : list TimestampItem) (st : state) :
  extract_video_id url = Some vid ->
  fst (get_cached_analysis vid st) = Return NotFound ->
  fst (fetch_transcript E vid st) = Return (FetchOk segs text) ->
  fst (analyze_transcript E text segs (snd (fetch_transcript E vid st)))
    = Return (AiOk ts) ->
  validate_timestamps E ts = Some items ->
  (forall w,
     fst (post_analyze (with_disk w E) url st) =
       Http200 {| success := true; video_id := Some vid;
                  video_title := Some (title_of vid);
                  timestamps := items; cached := false; error := None |})
  /\ (forall E' url' st' w1 w2,
        fst (post_analyze (with_disk w1 E') url' st')
        = fst (post_analyze (with_disk w2 E') url' st')).
Proof.
  intros He Hmiss Hf Ha Hv. split; [|intros; apply post_analyze_any_disk].
  intros w. apply stored_not_found in Hmiss.
  unfold post_analyze, serve. rewrite (analyze_video_miss _ _ _ _ He Hmiss).
  rewrite fetch_transcript_run in Hf, Ha. simpl in Hf, Ha.
  change (ytt_fetch (with_disk w E)) with (ytt_fetch E).
  destruct (ytt_fetch E vid) as [l|msg]; [|discriminate].
  injection Hf as -> ->. rewrite bind_run.
  change (analyze_transcript (with_disk w E)) with (analyze_transcript E).
  destruct (analyze_transcript E _ _ _) as [o st2]. simpl in Ha. subst o.
  pose proof (respond_after_save (with_disk w E) vid ts st2) as H1.
  change (validate_timestamps (with_disk w E)) with (validate_timestamps E) in H1.
  rewrite Hv in H1.
  destruct ((run save_analysis (with_disk w E) vid (title_of vid) ts;
             new_AnalyzeResponse (with_disk w E) vid (JStr (title_of vid)) ts false) st2)
    as [o1 s1].
  simpl in H1. by subst o1.
Qed.

End persistence.

Section persistence_examples.

Import youtube ai database main Samples.

Lemma C1_witness :
  fst (post_analyze
         (with_disk (OpenFailed "[Errno 13] Permission denied") E_ok) url st0) =
    Http200 {| success := true; video_id := Some vid;
               video_title := Some "YouTube Video (dQw4w9WgXcQ)";
               timestamps := [ {| seconds := 0; time := "0:00"; reason := "Opening" |} ];
               cached := false; error := None |}.
Proof.
  refine (proj1 (C1_response_despite_failed_write E_ok url vid "Hello world"
                   hello_world (JList [opening_item]) _ st0 _ _ _ _ _)
                (OpenFailed "[Errno 13] Permission denied"));
    vm_compute; reflexivity.
Defined.

End persistence_examples.

(** ** The analysis step *)

Section engine.

Import youtube ai database main.

Lemma stateless_ret {A} (a : A) : stateless (ret a).
Proof. done. Qed.

Lemma stateless_raise {A} (e : pyexc) : stateless (@raise A e).
Proof. done. Qed.

Lemma stateless_bind {A B} (m : M A) (k : A -> M B) :
  stateless m -> (forall a, stateless (k a)) -> stateless (bind m k).
Proof.
  intros Hm Hk st. rewrite bind_run. specialize (Hm st).
  destruct (m st) as [[a|e] st']; simpl in *; subst; [apply Hk | done].
Qed.

Lemma stateless_get (j : json) (k : string) (d : json) : stateless (Py.get j k d).
Proof. by destruct j. Qed.

Lemma stateless_getitem (j : json) (k : string) : stateless (Py.getitem j k).
Proof. destruct j as [| | | | | |m]; try done. simpl. by destruct (m !! k). Qed.

Lemma stateless_getitem0 (j : json) : stateless (Py.getitem0 j).
Proof. destruct j as [| | | |s|l|]; try done; [by destruct s | by destruct l]. Qed.

Lemma stateless_stripped (j : json) : stateless (Py.stripped j).
Proof. by destruct j. Qed.

Lemma stateless_response_json (E : env) (r : Response) :
  stateless (response_json E r).
Proof. unfold response_json. by destruct (json_loads E (body r)). Qed.

Ltac stateless_step :=
  lazymatch goal with
  | |- stateless (bind _ _) => apply stateless_bind; [|intros ?]
  | |- stateless (ret _) => apply stateless_ret
  | |- stateless (raise _) => apply stateless_raise
  | |- stateless (Py.get _ _ _) => apply stateless_get
  | |- stateless (Py.getitem _ _) => apply stateless_getitem
  | |- stateless (Py.getitem0 _) => apply stateless_getitem0
  | |- stateless (Py.stripped _) => apply stateless_stripped
  | |- stateless (response_json _ _) => apply stateless_response_json
  | |- stateless (match ?x with _ => _ end) => destruct x
  end.

(** Without the key nothing is sent. *)
Lemma analyze_transcript_unconfigured (E : env) (text : string)
    (l : list segment) (st : state) :
  Py.truthy (OPENROUTER_API_KEY E) = false ->
  analyze_transcript E text l st =
    (Return (AiFailed (Text "OpenRouter API key not configured. Please add OPENROUTER_API_KEY to your .env file.")), st).
Proof. intros H. unfold analyze_transcript. by rewrite H. Qed.

(** Without segments the prompt cannot be built and nothing is sent. *)
Lemma analyze_transcript_no_segments (E : env) (text : string) (st : state) :
  Py.truthy (OPENROUTER_API_KEY E) = true ->
  analyze_transcript E text [] st =
    (Return (AiFailed (Text "AI analysis failed: list index out of range")), st).
Proof. intros H. unfold analyze_transcript. by rewrite H. Qed.

(** With the key and at least one segment, exactly one request is sent, the
    file is not touched and a result is returned, never an exception. *)
Lemma analyze_transcript_posts (E : env) (text : string) (s0 : segment)
    (l : list segment) (st : state) :
  Py.truthy (OPENROUTER_API_KEY E) = true ->
  exists r,
    analyze_transcript E text (s0 :: l) st =
      (Return r,
       {| fs := fs st;
          trace := trace st ++
            [EvPost {| p_transcript := text;
                       p_segments := length (s0 :: l);
                       p_first_start := start s0;
                       p_last_start := start (List.last (s0 :: l) s0) |}] |}).
Proof.
  intros H. unfold analyze_transcript. rewrite H. cbn [negb].
  unfold try_except, build_prompt. rewrite !bind_run. cbn [ret emit].
  rewrite bind_run. cbn [emit].
  match goal with |- context [match ?b ?s with _ => _ end] =>
    assert (stateless b) as Hb; [|specialize (Hb s); destruct (b s) as [[r|e] st']]
  end.
  - repeat stateless_step.
  - simpl in Hb. subst. eauto.
  - simpl in Hb. subst. destruct e; simpl; eauto.
Qed.

(** In every case the analysis returns a result and leaves the file alone. *)
Lemma analyze_transcript_returns (E : env) (text : string)
    (l : list segment) (st : state) :
  exists r st', analyze_transcript E text l st = (Return r, st')
                /\ fs st' = fs st.
Proof.
  destruct (Py.truthy (OPENROUTER_API_KEY E)) eqn:Hk.
  - destruct l as [|s0 l].
    + rewrite analyze_transcript_no_segments by done. eauto.
    + destruct (analyze_transcript_posts E text s0 l st Hk) as [r ->]. eauto.
  - rewrite analyze_transcript_unconfigured by done. eauto.
Qed.

End engine.

Section analysis_failures.

Import youtube ai database main.

(** The steps before the analysis do not read the key. *)
Lemma post_analyze_before_analysis (E : env) (url : string) (st : state)
    (k : option string) :
  extract_video_id url = None
  \/ (exists vid data, extract_video_id url = Some vid
        /\ fst (get_cached_analysis vid st) = Return (Found data))
  \/ (exists vid err, extract_video_id url = Some vid
        /\ fst (get_cached_analysis vid st) = Return NotFound
        /\ fst (fetch_transcript E vid st) = Return (FetchFailed err)) ->
  post_analyze (with_key k E) url st = post_analyze E url st.
Proof.
  unfold post_analyze, serve.
  intros [He|[(vid & data & He & Hs)|(vid & err & He & Hs & Hf)]].
  - by rewrite !(analyze_video_invalid _ _ _ He).
  - apply stored_found in Hs. by rewrite !(analyze_video_hit _ _ _ _ _ He Hs).
  - apply stored_not_found in Hs. rewrite !(analyze_video_miss _ _ _ _ He Hs).
    rewrite fetch_transcript_run in Hf. simpl in Hf.
    change (ytt_fetch (with_key k E)) with (ytt_fetch E).
    by destruct (ytt_fetch E vid).
Qed.

(** C7: with the key absent from the environment, a request that ends at
    the URL check, at a cache hit or at a transcript failure is answered as
    with any key; a request that reaches the analysis is answered 500 with the
    not-configured message, and nothing is sent to the engine or written. *)
Theorem C7_missing_api_key (E : env) (url : string) (st : state) :
  OPENROUTER_API_KEY E = None ->
  (forall k,
     extract_video_id url = None
     \/ (exists vid data, extract_video_id url = Some vid
           /\ fst (get_cached_analysis vid st) = Return (Found data))
     \/ (exists vid err, extract_video_id url = Some vid
           /\ fst (get_cached_analysis vid st) = Return NotFound
           /\ fst (fetch_transcript E vid st) = Return (FetchFailed err)) ->
     post_analyze E url st = post_analyze (with_key k E) url st)
  /\ (forall vid segs text,
        extract_video_id url = Some vid ->
        fst (get_cached_analysis vid st) = Return NotFound ->
        fst (fetch_transcript E vid st) = Return (FetchOk segs text) ->
        post_analyze E url st =
          (HttpError 500 not_configured,
           {| fs := fs st; trace := trace st ++ [EvFetch vid] |})
        /\ status_of (fst (post_analyze E url st)) = 500).
Proof.
  intros Hk. split.
  - intros k H. symmetry. by apply post_analyze_before_analysis.
  - intros vid segs text He Hs Hf. apply stored_not_found in Hs.
    assert (post_analyze E url st =
              (HttpError 500 not_configured,
               {| fs := fs st; trace := trace st ++ [EvFetch vid] |})) as Hp.
    { unfold post_analyze, serve. rewrite (analyze_video_miss _ _ _ _ He Hs).
      rewrite fetch_transcript_run in Hf. simpl in Hf.
      destruct (ytt_fetch E vid) as [l|msg]; [|discriminate].
      rewrite bind_run, analyze_transcript_unconfigured; [done |].
      by rewrite Hk. }
    by rewrite Hp.
Qed.

Lemma C7_witness :
  let E := with_key None Samples.E_ok in
  post_analyze E "not a link" Samples.st0
    = post_analyze Samples.E_ok "not a link" Samples.st0
  /\ fst (post_analyze E Samples.url Samples.st0) = HttpError 500 not_configured.
Proof.
  intros E.
  destruct (C7_missing_api_key E "not a link" Samples.st0 eq_refl) as [Hpre _].
  destruct (C7_missing_api_key E Samples.url Samples.st0 eq_refl) as [_ Hrun].
  split.
  - apply (Hpre (Some "sk-or-test")). left. vm_compute. reflexivity.
  - destruct (Hrun Samples.vid Samples.hello_world "Hello world") as [-> _];
      [vm_compute; reflexivity.. | reflexivity].
Defined.

(** C10: when the transcript fetch succeeds with no segment, the analysis
    returns a failure result instead of raising (the index error of the empty
    list is caught, or the key is missing), the endpoint answers 500 with
    that failure, and nothing is sent to the engine or written. *)
Theorem C10_empty_transcript (E : env) (url vid text : string) (st : state) :
  extract_video_id url = Some vid ->
  fst (get_cached_analysis vid st) = Return NotFound ->
  fst (fetch_transcript E vid st) = Return (FetchOk [] text) ->
  exists err,
    fst (analyze_transcript E text [] (snd (fetch_transcript E vid st)))
      = Return (AiFailed err)
    /\ post_analyze E url st =
         (HttpError 500 err,
          {| fs := fs st; trace := trace st ++ [EvFetch vid] |})
    /\ status_of (fst (post_analyze E url st)) = 500
    /\ (Py.truthy (OPENROUTER_API_KEY E) = true ->
        err = Text "AI analysis failed: list index out of range").
Proof.
  intros He Hs Hf. apply stored_not_found in Hs.
  rewrite fetch_transcript_run in Hf |- *. simpl in Hf. simpl snd.
  unfold post_analyze, serve. rewrite (analyze_video_miss _ _ _ _ He Hs).
  destruct (ytt_fetch E vid) as [l|msg]; [|discriminate].
  injection Hf as -> <-. rewrite bind_run.
  destruct (Py.truthy (OPENROUTER_API_KEY E)) eqn:Hk.
  - rewrite !analyze_transcript_no_segments by done. simpl. eauto 10.
  - rewrite !analyze_transcript_unconfigured by done. simpl.
    eexists. repeat split; done.
Qed.

Lemma C10_witness :
  let E := with_key (Some "sk-or-test")
             {| OPENROUTER_API_KEY := None;
                ytt_fetch := fun _ => Snippets [];
                requests_post := fun _ _ => TimedOut;
                json_loads := Samples.decode [];
                disk_write := Written;
                utcnow_isoformat := "2024-01-01T00:00:00";
                coerce_timestamps := fun _ => None;
                coerce_title := fun _ => None |} in
  fst (post_analyze E Samples.url Samples.st0)
    = HttpError 500 (Text "AI analysis failed: list index out of range").
Proof.
  intros E.
  destruct (C10_empty_transcript E Samples.url Samples.vid EmptyString Samples.st0)
    as (err & _ & Hp & _ & Herr); [vm_compute; reflexivity.. |].
  rewrite Hp, Herr; reflexivity.
Defined.

End analysis_failures.

(** ** Transcript failures *)

Section transcript_failures.

Import PyStr youtube ai database main.

Lemma lower_split (s a b : string) :
  lower s = a +:+ b ->
  exists s1 s2, s = s1 +:+ s2 /\ lower s1 = a /\ lower s2 = b.
Proof.
  revert s. induction a as [|c a IH]; intros s H.
  - exists EmptyString, s. by rewrite !app_nil_l_str in *.
  - rewrite app_cons in H. destruct s as [|x s]; [discriminate |].
    simpl in H. injection H as Hc Hs.
    destruct (IH s Hs) as (s1 & s2 & -> & H1 & H2).
    exists (String x s1), s2. rewrite app_cons. simpl. by rewrite Hc, H1.
Qed.

(** The test [needle in str(e).lower()] is the occurrence of [needle] with
    case ignored. *)
Lemma contains_lower (needle msg : string) :
  contains needle (lower msg) = true <-> mentions needle msg.
Proof.
  rewrite contains_spec. split.
  - intros (pre & suf & H).
    apply lower_split in H as (s1 & s23 & -> & H1 & H23).
    apply lower_split in H23 as (s2 & s3 & -> & H2 & H3).
    by exists s1, s2, s3.
  - intros (pre & mid & suf & -> & Hm).
    exists (lower pre), (lower suf). by rewrite !lower_app, Hm.
Qed.

Lemma contains_lower_false (needle msg : string) :
  contains needle (lower msg) = false <-> ~ mentions needle msg.
Proof.
  rewrite <- contains_lower.
  destruct (contains needle (lower msg)); split; try done.
Qed.

Lemma classify_kind (msg : string) :
  exists k, kind_of msg k /\ classify msg = kind_message k msg.
Proof.
  unfold classify.
  destruct (contains "disabled" (lower msg)) eqn:H1.
  { exists Disabled. split; [by apply contains_lower | done]. }
  apply contains_lower_false in H1.
  destruct (contains "no transcript" (lower msg)) eqn:H2.
  { exists NoTranscript. split; [|done]. split; [done |].
    left. by apply contains_lower. }
  destruct (contains "not found" (lower msg)) eqn:H3.
  { exists NoTranscript. split; [|done]. split; [done |].
    right. by apply contains_lower. }
  apply contains_lower_false in H2, H3.
  destruct (contains "unavailable" (lower msg)) eqn:H4.
  { exists Unavailable. split; [|done]. split; [done |]. split; [tauto |].
    left. by apply contains_lower. }
  destruct (contains "private" (lower msg)) eqn:H5.
  { exists Unavailable. split; [|done]. split; [done |]. split; [tauto |].
    right. by apply contains_lower. }
  apply contains_lower_false in H4, H5.
  exists OtherFetchError. split; [|done]. simpl. tauto.
Qed.

(** C5: when the transcript service raises, the failure is given the kind
    found by looking, with case ignored and in this order, for disabled, for
    no transcript or not found, for unavailable or private, and the remaining
    kind otherwise; [fetch_transcript] returns the message of that kind and
    the endpoint answers 400 with it. A failure that mentions disabled is
    answered 400 with the disabled wording. *)
Theorem C5_fetch_failure_classified
    (E : env) (url vid msg : string) (st : state) :
  extract_video_id url = Some vid ->
  fst (get_cached_analysis vid st) = Return NotFound ->
  ytt_fetch E vid = FetchError msg ->
  (exists k,
     kind_of msg k
     /\ fst (fetch_transcript E vid st) = Return (FetchFailed (kind_message k msg))
     /\ fst (post_analyze E url st) = HttpError 400 (kind_message k msg))
  /\ (mentions "disabled" msg ->
      fst (post_analyze E url st)
        = HttpError 400 (Text "Transcripts are disabled for this video.")).
Proof.
  intros He Hs Hf. apply stored_not_found in Hs.
  assert (fst (post_analyze E url st) = HttpError 400 (classify msg)) as Hp.
  { unfold post_analyze, serve.
    by rewrite (analyze_video_miss _ _ _ _ He Hs), Hf. }
  split.
  - destruct (classify_kind msg) as (k & Hk & Hc). exists k.
    rewrite fetch_transcript_run, Hf, Hp, Hc. done.
  - intros Hd. rewrite Hp. unfold classify.
    apply contains_lower in Hd. by rewrite Hd.
Qed.

Lemma C5_witness :
  let E := {| OPENROUTER_API_KEY := None;
              ytt_fetch := fun _ =>
                FetchError "Subtitles are DISABLED for this video (private)";
              requests_post := fun _ _ => TimedOut;
              json_loads := Samples.decode [];
              disk_write := Written;
              utcnow_isoformat := "2024-01-01T00:00:00";
              coerce_timestamps := fun _ => None;
              coerce_title := fun _ => None |} in
  fst (post_analyze E Samples.url Samples.st0)
    = HttpError 400 (Text "Transcripts are disabled for this video.").
Proof.
  intros E.
  destruct (C5_fetch_failure_classified E Samples.url Samples.vid
              "Subtitles are DISABLED for this video (private)" Samples.st0)
    as [_ Hd]; [vm_compute; reflexivity.. |].
  apply Hd.
  exists "Subtitles are ", "DISABLED", " for this video (private)".
  split; reflexivity.
Defined.

End transcript_failures.

(** ** The engine's answer *)

Section engine_answer.

Import youtube ai database main.

(** The analysis on a 200 whose body carries a message content: everything
    is decided by the decoding of the content once the fence is removed. *)
Lemma analyze_transcript_content (E : env) (s0 : segment) (l : list segment)
    (st : state) (resp : Response) (m c mm : gmap string json)
    (rest : list json) (content : string) :
  Py.truthy (OPENROUTER_API_KEY E) = true ->
  requests_post E (default EmptyString (OPENROUTER_API_KEY E)) (prompt_for s0 l)
    = Responded resp ->
  status_code resp = 200 ->
  json_loads E (body resp) = inl (JObj m) ->
  m !! "choices" = Some (JList (JObj c :: rest)) ->
  c !! "message" = Some (JObj mm) ->
  mm !! "content" = Some (JStr content) ->
  analyze_transcript E (PyStr.join " " (map text (s0 :: l))) (s0 :: l) st =
    (Return match json_loads E (unfence (PyStr.strip content)) with
            | inr (JSONDecodeError msg) =>
                AiFailed (Text ("Failed to parse AI response: " +:+ msg))
            | inr Timeout => AiFailed (Text "AI request timed out. Please try again.")
            | inr e => AiFailed (format_exc "AI analysis failed: " e)
            | inl (JObj pm) => AiOk (default (JList []) (pm !! "timestamps"))
            | inl _ => AiFailed (Interp "AI analysis failed: " AttributeError)
            end,
     {| fs := fs st; trace := trace st ++ [EvPost (prompt_for s0 l)] |}).
Proof.
  intros Hk Hpost Hstatus Hbody Hchoices Hmessage Hcontent.
  unfold analyze_transcript. rewrite Hk. cbn [negb].
  unfold try_except, build_prompt. rewrite !bind_run. cbn [ret emit].
  rewrite bind_run. cbn [emit].
  change {| p_transcript := PyStr.join " " (map text (s0 :: l));
            p_segments := length (s0 :: l);
            p_first_start := start s0;
            p_last_start := start (List.last (s0 :: l) s0) |}
    with (prompt_for s0 l).
  rewrite Hpost, Hstatus. cbn [Z.eqb Pos.eqb negb].
  unfold response_json. rewrite Hbody.
  rewrite bind_run. cbn [ret]. rewrite bind_run.
  unfold Py.getitem at 1. rewrite Hchoices. cbn [ret].
  rewrite bind_run. cbn [Py.getitem0 ret]. rewrite bind_run.
  unfold Py.getitem at 1. rewrite Hmessage. cbn [ret].
  rewrite bind_run. unfold Py.getitem at 1. rewrite Hcontent. cbn [ret].
  rewrite bind_run. cbn [Py.stripped ret].
  destruct (json_loads E (unfence (PyStr.strip content))) as [parsed|e];
    [|by destruct e].
  rewrite bind_run. by destruct parsed as [| | | | | |pm].
Qed.

Lemma validate_timestamps_empty (E : env) : validate_timestamps E (JList []) = Some [].
Proof. reflexivity. Qed.

(** C6, amended: when the content of the engine's answer, with its fence
    removed, is not valid JSON, the endpoint answers 500 with the
    parse-failure message and nothing is written; when it is a JSON object
    without a timestamps entry, the answer is accepted as an empty list of
    highlights and the endpoint answers 200. *)
Theorem C6_undecodable_content
    (E : env) (url vid : string) (st : state) (s0 : segment) (l : list segment)
    (resp : Response) (m c mm : gmap string json) (rest : list json)
    (content : string) :
  extract_video_id url = Some vid ->
  fst (get_cached_analysis vid st) = Return NotFound ->
  ytt_fetch E vid = Snippets (s0 :: l) ->
  Py.truthy (OPENROUTER_API_KEY E) = true ->
  requests_post E (default EmptyString (OPENROUTER_API_KEY E)) (prompt_for s0 l)
    = Responded resp ->
  status_code resp = 200 ->
  json_loads E (body resp) = inl (JObj m) ->
  m !! "choices" = Some (JList (JObj c :: rest)) ->
  c !! "message" = Some (JObj mm) ->
  mm !! "content" = Some (JStr content) ->
  (forall msg,
     json_loads E (unfence (PyStr.strip content)) = inr (JSONDecodeError msg) ->
     post_analyze E url st =
       (HttpError 500 (Text ("Failed to parse AI response: " +:+ msg)),
        {| fs := fs st;
           trace := trace st ++ [EvFetch vid; EvPost (prompt_for s0 l)] |}))
  /\ (forall pm,
        json_loads E (unfence (PyStr.strip content)) = inl (JObj pm) ->
        pm !! "timestamps" = None ->
        fst (post_analyze E url st) =
          Http200 {| success := true; video_id := Some vid;
                     video_title := Some (title_of vid);
                     timestamps := []; cached := false; error := None |}).
Proof.
  intros He Hs Hf Hk Hpost Hstatus Hbody Hchoices Hmessage Hcontent.
  apply stored_not_found in Hs.
  pose proof (analyze_transcript_content E s0 l
                {| fs := fs st; trace := trace st ++ [EvFetch vid] |}
                resp m c mm rest content Hk Hpost Hstatus Hbody Hchoices
                Hmessage Hcontent) as Ha.
  unfold post_analyze, serve. rewrite (analyze_video_miss _ _ _ _ He Hs), Hf.
  split.
  - intros msg Hbad. rewrite bind_run, Ha, Hbad. simpl.
    by rewrite <- app_assoc.
  - intros pm Hgood Hnone. rewrite bind_run, Ha, Hgood, Hnone.
    cbn [from_option id].
    pose proof (respond_after_save E vid (JList [])
                  {| fs := fs st;
                     trace := (trace st ++ [EvFetch vid]) ++ [EvPost (prompt_for s0 l)] |})
      as Hr.
    rewrite validate_timestamps_empty in Hr.
    destruct ((run save_analysis E vid (title_of vid) (JList []);
               new_AnalyzeResponse E vid (JStr (title_of vid)) (JList []) false) _)
      as [o s1].
    simpl in Hr. by subst o.
Qed.

End engine_answer.

Section engine_answer_examples.

Import youtube ai database main Samples.

Lemma C6_witness :
  fst (post_analyze E_prose url st0) =
    HttpError 500
      (Text "Failed to parse AI response: Expecting value: line 1 column 1 (char 0)").
Proof.
  destruct (C6_undecodable_content E_prose url vid st0
              {| text := "Hello"; start := 0; duration := 1 |}
              [ {| text := "world"; start := 1; duration := 1 |} ]
              {| status_code := 200; body := chat_text "Sorry, I cannot do that." |}
              {[ "choices" :=
                   JList [ JObj {[ "message" :=
                                     JObj {[ "content" := JStr "Sorry, I cannot do that." ]} ]} ] ]}
              {[ "message" := JObj {[ "content" := JStr "Sorry, I cannot do that." ]} ]}
              {[ "content" := JStr "Sorry, I cannot do that." ]}
              [] "Sorry, I cannot do that.")
    as [Hbad _]; [vm_compute; reflexivity.. |].
  rewrite (Hbad "Expecting value: line 1 column 1 (char 0)");
    [reflexivity | vm_compute; reflexivity].
Defined.

(** The engine answers with the JSON object [{}]: no list of highlights can
    be read from it, and the endpoint answers 200 with an empty list. *)
Lemma C6_counterexample :
  json_loads E_empty (body {| status_code := 200; body := chat_text "{}" |})
    = inl (chat "{}")
  /\ json_loads E_empty (unfence (PyStr.strip "{}")) = inl (JObj ∅)
  /\ fst (post_analyze E_empty url st0) =
       Http200 {| success := true; video_id := Some vid;
                  video_title := Some "YouTube Video (dQw4w9WgXcQ)";
                  timestamps := []; cached := false; error := None |}
  /\ status_of (fst (post_analyze E_empty url st0)) <> 500.
Proof. repeat split; vm_compute; (reflexivity || discriminate). Qed.

End engine_answer_examples.

(** ** Cache hits *)

Section cache_hits.

Import youtube ai database main.

Lemma validate_title_same (E1 E2 : env) (j : json) :
  coerce_title E2 = coerce_title E1 -> validate_title E2 j = validate_title E1 j.
Proof. intros H. unfold validate_title. by rewrite H. Qed.

Lemma validate_timestamps_same (E1 E2 : env) (j : json) :
  coerce_timestamps E2 = coerce_timestamps E1 ->
  validate_timestamps E2 j = validate_timestamps E1 j.
Proof. intros H. unfold validate_timestamps. by rewrite H. Qed.

(** The handler on a hit: nothing but the response is computed. *)
Lemma post_analyze_hit (E : env) (url vid : string) (st : state)
    (m : gmap string json) (t : option string) (items : list TimestampItem) :
  extract_video_id url = Some vid ->
  stored st vid = Some (JObj m) ->
  validate_title E (default (JStr "Unknown") (m !! "video_title")) = Some t ->
  validate_timestamps E (default (JList []) (m !! "timestamps")) = Some items ->
  post_analyze E url st =
    (Http200 {| success := true; video_id := Some vid; video_title := t;
                timestamps := items; cached := true; error := None |}, st).
Proof.
  intros He Hs Ht Hi. unfold post_analyze, serve.
  rewrite (analyze_video_hit _ _ _ _ _ He Hs).
  rewrite !bind_run. cbn [Py.get ret]. rewrite bind_run. cbn [ret].
  rewrite new_AnalyzeResponse_run.
  cbv [from_option id] in Ht, Hi. by rewrite Ht, Hi.
Qed.

(** A hit on an entry the response model takes: for an identifier whose
    entry in the cache store is an object with a title and a list of
    highlights that the response model takes, the endpoint answers 200 with
    that title and those highlights and cached = true, and leaves the file
    and the trace as they were: no transcript is fetched, nothing is sent to
    the engine, nothing is written. A second call for the same identifier
    answers the same, and the engine is called no more often after the two
    calls than before them. *)
Lemma cache_hit_accepted
    (E1 E2 : env) (url vid : string) (st : state) (m : gmap string json)
    (t : option string) (items : list TimestampItem) :
  extract_video_id url = Some vid ->
  fst (get_cached_analysis vid st) = Return (Found (JObj m)) ->
  validate_title E1 (default (JStr "Unknown") (m !! "video_title")) = Some t ->
  validate_timestamps E1 (default (JList []) (m !! "timestamps")) = Some items ->
  coerce_title E2 = coerce_title E1 ->
  coerce_timestamps E2 = coerce_timestamps E1 ->
  let r := Http200 {| success := true; video_id := Some vid; video_title := t;
                      timestamps := items; cached := true; error := None |} in
  post_analyze E1 url st = (r, st)
  /\ post_analyze E2 url (snd (post_analyze E1 url st)) = (r, st)
  /\ engine_calls (trace (snd (post_analyze E2 url (snd (post_analyze E1 url st)))))
     = engine_calls (trace st).
Proof.
  intros He Hs Ht Hi Hct Hci r. apply stored_found in Hs.
  assert (post_analyze E1 url st = (r, st)) as H1
    by (by apply (post_analyze_hit _ _ _ _ m)).
  assert (post_analyze E2 url st = (r, st)) as H2.
  { apply (post_analyze_hit _ _ _ _ m); try done.
    - by rewrite (validate_title_same E1 E2).
    - by rewrite (validate_timestamps_same E1 E2). }
  rewrite H1. simpl snd. rewrite H2. done.
Qed.

End cache_hits.

Section cache_hit_examples.

Import youtube ai database main Samples.

Example cache_hit_accepted_example :
  let st := snd (post_analyze E_ok url st0) in
  post_analyze E_ok url st =
    (Http200 {| success := true; video_id := Some vid;
                video_title := Some "YouTube Video (dQw4w9WgXcQ)";
                timestamps := [ {| seconds := 0; time := "0:00"; reason := "Opening" |} ];
                cached := true; error := None |}, st).
Proof.
  intros st.
  refine (proj1 (cache_hit_accepted E_ok E_ok url vid st
                   (<["video_id" := JStr vid]>
                    (<["video_title" := JStr (title_of vid)]>
                     (<["timestamps" := JList [opening_item]]>
                      (<["created_at" := JStr "2024-01-01T00:00:00"]> ∅))))
                   _ _ _ _ _ _ eq_refl eq_refl));
    vm_compute; reflexivity.
Qed.

End cache_hit_examples.

(** ** A fresh analysis followed by a hit *)

Section analysis_then_hit.

Import youtube ai database main.

Lemma engine_calls_app (a b : list event) :
  engine_calls (a ++ b) = (engine_calls a + engine_calls b)%nat.
Proof. induction a as [|e a IH]; simpl; [done | rewrite IH; lia]. Qed.

Lemma exact_items_validate (E : env) (js : list json) (items : list TimestampItem) :
  exact_items js = Some items -> validate_timestamps E (JList js) = Some items.
Proof. intros H. simpl. by rewrite H. Qed.

(** X7: the first request misses, analyses and the disk takes the write; the
    second request, in any surroundings, is answered from the store with the
    same title and highlights, and the engine has been called once in all. *)
Lemma analyze_twice (E1 E2 : env) (url vid : string) (st : state)
    (mfile : gmap string json) (s0 : segment) (l : list segment)
    (js : list json) (items : list TimestampItem) :
  extract_video_id url = Some vid ->
  loaded (fs st) = JObj mfile ->
  mfile !! vid = None ->
  ytt_fetch E1 vid = Snippets (s0 :: l) ->
  fst (analyze_transcript E1 (PyStr.join " " (map text (s0 :: l))) (s0 :: l)
         (snd (fetch_transcript E1 vid st))) = Return (AiOk (JList js)) ->
  exact_items js = Some items ->
  disk_write E1 = Written ->
  let st1 := snd (post_analyze E1 url st) in
  fst (post_analyze E1 url st) =
    Http200 {| success := true; video_id := Some vid;
               video_title := Some (title_of vid);
               timestamps := items; cached := false; error := None |}
  /\ post_analyze E2 url st1 =
       (Http200 {| success := true; video_id := Some vid;
                   video_title := Some (title_of vid);
                   timestamps := items; cached := true; error := None |}, st1)
  /\ engine_calls (trace st1) = (engine_calls (trace st) + 1)%nat.
Proof.
  intros He Hm Hnone Hf Ha Hi Hw.
  assert (stored st vid = None) as Hs by (by rewrite (stored_dict _ _ _ Hm)).
  assert (Py.truthy (OPENROUTER_API_KEY E1) = true) as Hk.
  { destruct (Py.truthy (OPENROUTER_API_KEY E1)) eqn:Hk; [done |].
    rewrite analyze_transcript_unconfigured in Ha by done. discriminate. }
  rewrite fetch_transcript_run in Ha. simpl snd in Ha.
  destruct (analyze_transcript_posts E1 (PyStr.join " " (map text (s0 :: l)))
              s0 l {| fs := fs st; trace := trace st ++ [EvFetch vid] |} Hk)
    as [r Hr].
  rewrite Hr in Ha. simpl in Ha. injection Ha as ->.
  assert (exists p,
    post_analyze E1 url st =
      (Http200 {| success := true; video_id := Some vid;
                  video_title := Some (title_of vid);
                  timestamps := items; cached := false; error := None |},
       {| fs := Holds (JObj (<[vid := record E1 vid (title_of vid) (JList js)]> mfile));
          trace := (trace st ++ [EvFetch vid]) ++ [EvPost p] |})) as [p Hp].
  { eexists. unfold post_analyze, serve.
    rewrite (analyze_video_miss _ _ _ _ He Hs), Hf, bind_run, Hr, bind_run.
    rewrite (save_analysis_dict _ _ _ _ _ mfile) by done.
    rewrite Hw, new_AnalyzeResponse_run.
    rewrite (exact_items_validate _ _ _ Hi). reflexivity. }
  intros st1. subst st1. rewrite Hp. simpl fst. simpl snd.
  split; [done |]. split.
  - destruct (record_fields E1 vid (title_of vid) (JList js))
      as (rm & Hrec & _ & Htitle & Hts & _).
    apply (post_analyze_hit _ _ _ _ rm); try done.
    + rewrite (stored_dict _ (<[vid := record E1 vid (title_of vid) (JList js)]> mfile))
        by done.
      by rewrite lookup_insert_eq, Hrec.
    + by rewrite Htitle.
    + rewrite Hts. by apply exact_items_validate.
  - simpl trace. rewrite !engine_calls_app. simpl. lia.
Qed.

(** A value that is not a list is refused by the response model in any
    surroundings. *)
Lemma validate_timestamps_not_list (E : env) (ts : json) :
  (forall js, ts <> JList js) -> validate_timestamps E ts = None.
Proof. intros H. destruct ts; try done. by destruct (H l). Qed.

(** C2, the code at an entry the response model refuses: the first request
    misses the cache, the analysis returns success with a timestamps value
    that is not a list, and the disk takes the write. The handler saves the
    record before it builds the response, so the first request ends in a bare
    500 and leaves the identifier present in the store. The second request
    for the same identifier, in any surroundings, finds the entry and ends in
    a bare 500 again, changing nothing: the stored record is not returned and
    nothing is marked cached = true. The engine was called once. *)
Theorem C2_refused_entry_answers_500
    (E1 E2 : env) (url vid : string) (st : state)
    (mfile : gmap string json) (s0 : segment) (l : list segment) (ts : json) :
  extract_video_id url = Some vid ->
  loaded (fs st) = JObj mfile ->
  mfile !! vid = None ->
  ytt_fetch E1 vid = Snippets (s0 :: l) ->
  fst (analyze_transcript E1 (PyStr.join " " (map text (s0 :: l))) (s0 :: l)
         (snd (fetch_transcript E1 vid st))) = Return (AiOk ts) ->
  (forall js, ts <> JList js) ->
  disk_write E1 = Written ->
  let st1 := snd (post_analyze E1 url st) in
  fst (post_analyze E1 url st) = InternalServerError
  /\ fst (get_cached_analysis vid st1)
     = Return (Found (record E1 vid (title_of vid) ts))
  /\ post_analyze E2 url st1 = (InternalServerError, st1)
  /\ engine_calls (trace st1) = (engine_calls (trace st) + 1)%nat.
Proof.
  intros He Hm Hnone Hf Ha Hts Hw.
  assert (stored st vid = None) as Hs by (by rewrite (stored_dict _ _ _ Hm)).
  assert (Py.truthy (OPENROUTER_API_KEY E1) = true) as Hk.
  { destruct (Py.truthy (OPENROUTER_API_KEY E1)) eqn:Hk; [done |].
    rewrite analyze_transcript_unconfigured in Ha by done. discriminate. }
  rewrite fetch_transcript_run in Ha. simpl snd in Ha.
  destruct (analyze_transcript_posts E1 (PyStr.join " " (map text (s0 :: l)))
              s0 l {| fs := fs st; trace := trace st ++ [EvFetch vid] |} Hk)
    as [r Hr].
  rewrite Hr in Ha. simpl in Ha. injection Ha as ->.
  assert (exists p,
    post_analyze E1 url st =
      (InternalServerError,
       {| fs := Holds (JObj (<[vid := record E1 vid (title_of vid) ts]> mfile));
          trace := (trace st ++ [EvFetch vid]) ++ [EvPost p] |})) as [p Hp].
  { eexists. unfold post_analyze, serve.
    rewrite (analyze_video_miss _ _ _ _ He Hs), Hf, bind_run, Hr, bind_run.
    rewrite (save_analysis_dict _ _ _ _ _ mfile) by done.
    rewrite Hw, new_AnalyzeResponse_run.
    rewrite (validate_timestamps_not_list _ _ Hts). reflexivity. }
  intros st1. subst st1. rewrite Hp. simpl fst. simpl snd.
  destruct (record_fields E1 vid (title_of vid) ts)
    as (rm & Hrec & _ & Htitle & Hrts & _).
  assert (stored
            {| fs := Holds (JObj (<[vid := record E1 vid (title_of vid) ts]> mfile));
               trace := (trace st ++ [EvFetch vid]) ++ [EvPost p] |} vid
          = Some (JObj rm)) as Hstored.
  { rewrite (stored_dict _ (<[vid := record E1 vid (title_of vid) ts]> mfile))
      by done.
    by rewrite lookup_insert_eq, Hrec. }
  split; [done |]. split; [|split].
  - rewrite get_cached_analysis_run. cbn [fst]. by rewrite Hstored, Hrec.
  - unfold post_analyze, serve.
    rewrite (analyze_video_hit _ _ _ _ _ He Hstored).
    rewrite !bind_run. cbn [Py.get ret]. rewrite bind_run. cbn [ret].
    rewrite new_AnalyzeResponse_run, Hrts. cbn [from_option id].
    rewrite (validate_timestamps_not_list _ _ Hts).
    by destruct (validate_title E2 _).
  - simpl trace. rewrite !engine_calls_app. simpl. lia.
Qed.

Lemma C2_witness :
  let st1 := snd (post_analyze Samples.E_scalar Samples.url Samples.st0) in
  fst (post_analyze Samples.E_scalar Samples.url Samples.st0) = InternalServerError
  /\ fst (get_cached_analysis Samples.vid st1)
     = Return (Found (record Samples.E_scalar Samples.vid
                        (title_of Samples.vid) (JInt 5)))
  /\ post_analyze Samples.E_ok Samples.url st1 = (InternalServerError, st1)
  /\ engine_calls (trace st1) = 1%nat.
Proof.
  apply (C2_refused_entry_answers_500 Samples.E_scalar Samples.E_ok Samples.url
           Samples.vid Samples.st0 ∅
           {| text := "Hello"; start := 0; duration := 1 |}
           [ {| text := "world"; start := 1; duration := 1 |} ]
           (JInt 5));
    try (vm_compute; reflexivity).
  intros js. discriminate.
Defined.

End analysis_then_hit.

(** ** The worked example *)

Section worked_example.

Import youtube ai database main Samples.

(** The short link of the example, two segments and one highlight: the
    response of the first request, the entry left in the store, and the
    response of the second request. *)
Example end_to_end :
  extract_video_id url = Some "dQw4w9WgXcQ"
  /\ fst (post_analyze E_ok url st0) =
       Http200 {| success := true; video_id := Some "dQw4w9WgXcQ";
                  video_title := Some "YouTube Video (dQw4w9WgXcQ)";
                  timestamps := [ {| seconds := 0; time := "0:00"; reason := "Opening" |} ];
                  cached := false; error := None |}
  /\ stored (snd (post_analyze E_ok url st0)) "dQw4w9WgXcQ"
     = Some (record E_ok "dQw4w9WgXcQ" "YouTube Video (dQw4w9WgXcQ)"
               (JList [opening_item]))
  /\ trace (snd (post_analyze E_ok url st0))
     = [ EvFetch "dQw4w9WgXcQ"; EvPost (prompt_for (List.hd (Build_segment EmptyString 0 0) hello_world) (List.tl hello_world)) ]
  /\ fst (post_analyze E_ok url (snd (post_analyze E_ok url st0))) =
       Http200 {| success := true; video_id := Some "dQw4w9WgXcQ";
                  video_title := Some "YouTube Video (dQw4w9WgXcQ)";
                  timestamps := [ {| seconds := 0; time := "0:00"; reason := "Opening" |} ];
                  cached := true; error := None |}.
Proof. repeat split; vm_compute; reflexivity. Qed.

(** The fence around the engine's answer is removed before decoding. *)
Example unfence_fenced :
  unfence ("```json" +:+ "{}" +:+ "```") = "{}"
  /\ unfence ("```" +:+ " {} " +:+ "```" +:+ " trailing") = "{}"
  /\ unfence "{} " = "{}"
  /\ unfence ("```" +:+ "json") = EmptyString.
Proof. repeat split; vm_compute; reflexivity. Qed.

End worked_example.

(** * Further properties *)

Local Open Scope list_scope.

(** ** Every path of the analyze handler *)

Section handler_paths.

Import youtube ai database main.

Lemma analyze_transcript_shape (E : env) (text : string) (l : list segment)
    (st : state) :
  exists r st',
    analyze_transcript E text l st = (Return r, st')
    /\ ((st' = st /\ exists err, r = AiFailed err)
        \/ (exists p, st' = {| fs := fs st; trace := trace st ++ [EvPost p] |})).
Proof.
  destruct (Py.truthy (OPENROUTER_API_KEY E)) eqn:Hk.
  - destruct l as [|s0 l].
    + rewrite analyze_transcript_no_segments by done. eauto 10.
    + destruct (analyze_transcript_posts E text s0 l st Hk) as [r ->]. eauto 10.
  - rewrite analyze_transcript_unconfigured by done. eauto 10.
Qed.

Lemma save_analysis_shape (E : env) (k title : string) (ts : json) (st : state) :
  exists r st',
    save_analysis E k title ts st = (Return r, st')
    /\ (trace st' = trace st \/ exists m, trace st' = trace st ++ [EvPrint m]).
Proof.
  destruct (loaded_cases (fs st)) as [[m Hm]|Hn].
  - rewrite (save_analysis_dict _ _ _ _ _ _ Hm).
    destruct (disk_write E); simpl; eauto 10.
  - destruct (save_analysis_not_dict E k title ts st Hn) as [err ->]. eauto 10.
Qed.

Lemma serve_new_AnalyzeResponse (E : env) (vid : string) (title ts : json)
    (c : bool) (st : state) :
  exists h, serve (new_AnalyzeResponse E vid title ts c) st = (h, st)
            /\ (status_of h = 200 \/ status_of h = 500).
Proof.
  unfold serve. rewrite new_AnalyzeResponse_run.
  destruct (validate_title E title), (validate_timestamps E ts); simpl; eauto.
Qed.

Lemma post_analyze_hit_shape (E : env) (url vid : string) (st : state) (data : json) :
  extract_video_id url = Some vid ->
  stored st vid = Some data ->
  exists h, post_analyze E url st = (h, st)
            /\ (status_of h = 200 \/ status_of h = 500).
Proof.
  intros He Hs. unfold post_analyze.
  destruct data as [| | | | | |m];
    try (unfold serve; rewrite (analyze_video_hit _ _ _ _ _ He Hs);
         simpl; eauto; fail).
  destruct (serve_new_AnalyzeResponse E vid
              (default (JStr "Unknown") (m !! "video_title"))
              (default (JList []) (m !! "timestamps")) true st) as (h & Hh & Hst).
  exists h. split; [|done]. rewrite <- Hh. unfold serve.
  rewrite (analyze_video_hit _ _ _ _ _ He Hs).
  rewrite !bind_run. cbn [Py.get ret]. rewrite bind_run. cbn [ret].
  reflexivity.
Qed.

(** The five ways a request to [POST /api/analyze] can go, with the response
    and the state each leaves. *)
Lemma post_analyze_cases (E : env) (url : string) (st : state) :
  (extract_video_id url = None
   /\ post_analyze E url st =
        (HttpError 400
           (Text "Invalid YouTube URL. Please provide a valid YouTube video link."), st))
  \/ (exists vid data h,
        extract_video_id url = Some vid /\ stored st vid = Some data
        /\ post_analyze E url st = (h, st)
        /\ (status_of h = 200 \/ status_of h = 500))
  \/ (exists vid msg,
        extract_video_id url = Some vid /\ stored st vid = None
        /\ ytt_fetch E vid = FetchError msg
        /\ post_analyze E url st =
             (HttpError 400 (classify msg),
              {| fs := fs st; trace := trace st ++ [EvFetch vid] |}))
  \/ (exists vid l err st2,
        extract_video_id url = Some vid /\ stored st vid = None
        /\ ytt_fetch E vid = Snippets l
        /\ analyze_transcript E (PyStr.join " " (map text l)) l
             {| fs := fs st; trace := trace st ++ [EvFetch vid] |}
           = (Return (AiFailed err), st2)
        /\ post_analyze E url st = (HttpError 500 err, st2)
        /\ fs st2 = fs st
        /\ (trace st2 = trace st ++ [EvFetch vid]
            \/ exists p, trace st2 = trace st ++ [EvFetch vid; EvPost p]))
  \/ (exists vid l ts p h,
        extract_video_id url = Some vid /\ stored st vid = None
        /\ ytt_fetch E vid = Snippets l
        /\ analyze_transcript E (PyStr.join " " (map text l)) l
             {| fs := fs st; trace := trace st ++ [EvFetch vid] |}
           = (Return (AiOk ts),
              {| fs := fs st; trace := trace st ++ [EvFetch vid; EvPost p] |})
        /\ post_analyze E url st =
             (h, snd (save_analysis E vid (title_of vid) ts
                        {| fs := fs st; trace := trace st ++ [EvFetch vid; EvPost p] |}))
        /\ (status_of h = 200 \/ status_of h = 500)).
Proof.
  destruct (extract_video_id url) as [vid|] eqn:He.
  2:{ left. split; [done |]. unfold post_analyze, serve.
      by rewrite (analyze_video_invalid _ _ _ He). }
  right. destruct (stored st vid) as [data|] eqn:Hs.
  { left. destruct (post_analyze_hit_shape E url vid st data He Hs) as (h & Hh & Hst).
    by exists vid, data, h. }
  right. destruct (ytt_fetch E vid) as [l|msg] eqn:Hf.
  2:{ left. exists vid, msg. repeat split; try done.
      unfold post_analyze, serve.
      by rewrite (analyze_video_miss _ _ _ _ He Hs), Hf. }
  right.
  destruct (analyze_transcript_shape E (PyStr.join " " (map text l)) l
              {| fs := fs st; trace := trace st ++ [EvFetch vid] |})
    as (r & st2 & Ha & Hshape).
  assert (post_analyze E url st =
            serve (match r with
                   | AiFailed error => raise (HTTPException 500 error)
                   | AiOk timestamps =>
                       run save_analysis E vid (title_of vid) timestamps;
                       new_AnalyzeResponse E vid (JStr (title_of vid)) timestamps false
                   end) st2) as Hp.
  { unfold post_analyze, serve.
    by rewrite (analyze_video_miss _ _ _ _ He Hs), Hf, bind_run, Ha. }
  destruct r as [ts|err].
  - right. destruct Hshape as [[_ [err Herr]]|[p ->]]; [discriminate |].
    simpl in Ha. rewrite <- app_assoc in Ha. simpl in Ha.
    destruct (save_analysis_shape E vid (title_of vid) ts
                {| fs := fs st; trace := trace st ++ [EvFetch vid; EvPost p] |})
      as (sr & st3 & Hsave & _).
    destruct (serve_new_AnalyzeResponse E vid (JStr (title_of vid)) ts false st3)
      as (h & Hh & Hst).
    exists vid, l, ts, p, h. repeat split; try done.
    rewrite Hp. unfold serve in *. rewrite bind_run.
    cbn [fs trace]. rewrite <- app_assoc. simpl app.
    rewrite Hsave. simpl. exact Hh.
  - left. exists vid, l, err, st2. repeat split; try done.
    + destruct Hshape as [[-> _]|[p ->]]; done.
    + destruct Hshape as [[-> _]|[p ->]]; simpl; [by left |].
      right. exists p. by rewrite <- app_assoc.
Qed.

End handler_paths.

Section handler_guarantees.

Import youtube ai database main.

Lemma fetch_calls_app (a b : list event) :
  fetch_calls (a ++ b) = (fetch_calls a + fetch_calls b)%nat.
Proof. induction a as [|e a IH]; simpl; [done | rewrite IH; lia]. Qed.

(** X1: [POST /api/analyze] answers 200, 400 or 500 and nothing else; it
    answers 400 exactly when no identifier is extracted from the URL, or the
    identifier is not in the cache and the transcript service raises. *)
Theorem X1_post_analyze_status (E : env) (url : string) (st : state) :
  (status_of (fst (post_analyze E url st)) = 200
   \/ status_of (fst (post_analyze E url st)) = 400
   \/ status_of (fst (post_analyze E url st)) = 500)
  /\ (status_of (fst (post_analyze E url st)) = 400 <->
      extract_video_id url = None
      \/ exists vid msg,
           extract_video_id url = Some vid
           /\ fst (get_cached_analysis vid st) = Return NotFound
           /\ ytt_fetch E vid = FetchError msg).
Proof.
  destruct (post_analyze_cases E url st)
    as [[He Hp]|[(vid & data & h & He & Hs & Hp & Hst)
       |[(vid & msg & He & Hs & Hf & Hp)
        |[(vid & l & err & st2 & He & Hs & Hf & _ & Hp & _)
         |(vid & l & ts & p & h & He & Hs & Hf & _ & Hp & Hst)]]]];
    rewrite Hp; simpl.
  - split; [tauto |]. split; [by left | done].
  - split; [tauto |]. split; [lia |].
    intros [Hn|(v & m & Hv & Hm & _)]; [congruence |].
    apply stored_not_found in Hm. congruence.
  - split; [tauto |]. split; [|done]. intros _. right. exists vid, msg.
    by rewrite stored_not_found.
  - split; [tauto |]. split; [lia |].
    intros [Hn|(v & m & Hv & _ & Hm)]; congruence.
  - split; [tauto |]. split; [lia |].
    intros [Hn|(v & m & Hv & _ & Hm)]; congruence.
Qed.

(** X2: the events one request adds to the trace hold at most one call of
    the transcript service and at most one call of the engine, and the engine
    is called only after the transcript service: before any call of the
    engine among the new events there is exactly one call of the transcript
    service. *)
Theorem X2_post_analyze_external_calls (E : env) (url : string) (st : state) :
  exists new,
    trace (snd (post_analyze E url st)) = trace st ++ new
    /\ (fetch_calls new <= 1)%nat
    /\ (engine_calls new <= 1)%nat
    /\ forall pre p suf,
         new = pre ++ EvPost p :: suf -> fetch_calls pre = 1%nat.
Proof.
  assert (forall new : list event,
            (exists vid, new = [EvFetch vid])
            \/ (exists vid p, new = [EvFetch vid; EvPost p])
            \/ (exists vid p m, new = [EvFetch vid; EvPost p; EvPrint m])
            \/ new = [] ->
            (fetch_calls new <= 1)%nat
            /\ (engine_calls new <= 1)%nat
            /\ forall pre p suf,
                 new = pre ++ EvPost p :: suf -> fetch_calls pre = 1%nat)
    as Hshape.
  { intros new [[vid ->]|[(vid & p & ->)|[(vid & p & m & ->)| ->]]];
      (split; [simpl; lia |]); (split; [simpl; lia |]);
      intros pre p0 suf H;
      destruct pre as [|e1 [|e2 [|e3 [|e4 pre]]]]; simpl in H;
      try discriminate; injection H; intros; subst; try discriminate;
      reflexivity. }
  destruct (post_analyze_cases E url st)
    as [[He Hp]|[(vid & data & h & He & Hs & Hp & Hst)
       |[(vid & msg & He & Hs & Hf & Hp)
        |[(vid & l & err & st2 & He & Hs & Hf & _ & Hp & _ & Htr)
         |(vid & l & ts & p & h & He & Hs & Hf & _ & Hp & Hst)]]]];
    rewrite Hp; cbn [snd].
  - exists []. split; [by rewrite app_nil_r |]. apply Hshape. eauto 10.
  - exists []. split; [by rewrite app_nil_r |]. apply Hshape. eauto 10.
  - exists [EvFetch vid]. split; [done |]. apply Hshape. eauto 10.
  - destruct Htr as [->|[p ->]].
    + exists [EvFetch vid]. split; [done |]. apply Hshape. eauto 10.
    + exists [EvFetch vid; EvPost p]. split; [done |]. apply Hshape. eauto 10.
  - destruct (save_analysis_shape E vid (title_of vid) ts
                {| fs := fs st; trace := trace st ++ [EvFetch vid; EvPost p] |})
      as (r & st3 & -> & Htr).
    cbn [snd] in *. simpl trace in Htr.
    destruct Htr as [->|[m ->]].
    + exists [EvFetch vid; EvPost p]. split; [done |]. apply Hshape. eauto 10.
    + exists [EvFetch vid; EvPost p; EvPrint m].
      split; [by rewrite <- app_assoc |]. apply Hshape. eauto 10.
Qed.

(** X3: a request changes the cache file only when its analysis succeeded:
    either the file is as it was, or the identifier was extracted, missed in
    the cache, its transcript fetched and the analysis returned success. *)
Theorem X3_post_analyze_writes_after_analysis
    (E : env) (url : string) (st : state) :
  fs (snd (post_analyze E url st)) = fs st
  \/ exists vid l ts,
       extract_video_id url = Some vid
       /\ fst (get_cached_analysis vid st) = Return NotFound
       /\ fst (fetch_transcript E vid st)
          = Return (FetchOk l (PyStr.join " " (map text l)))
       /\ fst (analyze_transcript E (PyStr.join " " (map text l)) l
                 (snd (fetch_transcript E vid st))) = Return (AiOk ts).
Proof.
  destruct (post_analyze_cases E url st)
    as [[He Hp]|[(vid & data & h & He & Hs & Hp & Hst)
       |[(vid & msg & He & Hs & Hf & Hp)
        |[(vid & l & err & st2 & He & Hs & Hf & _ & Hp & Hfs & _)
         |(vid & l & ts & p & h & He & Hs & Hf & Ha & Hp & Hst)]]]];
    try (left; by rewrite Hp).
  right. exists vid, l, ts. rewrite stored_not_found.
  rewrite fetch_transcript_run, Hf. simpl. by rewrite Ha.
Qed.

(** X4: a request answered 400 has sent nothing to the engine and has left
    the cache file as it was. *)
Theorem X4_post_analyze_rejected (E : env) (url : string) (st : state) :
  status_of (fst (post_analyze E url st)) = 400 ->
  engine_calls (trace (snd (post_analyze E url st))) = engine_calls (trace st)
  /\ fs (snd (post_analyze E url st)) = fs st.
Proof.
  destruct (post_analyze_cases E url st)
    as [[He Hp]|[(vid & data & h & He & Hs & Hp & Hst)
       |[(vid & msg & He & Hs & Hf & Hp)
        |[(vid & l & err & st2 & He & Hs & Hf & _ & Hp & _)
         |(vid & l & ts & p & h & He & Hs & Hf & _ & Hp & Hst)]]]];
    rewrite Hp; simpl; intros H4; try lia; try done.
  rewrite engine_calls_app. simpl. split; [lia | done].
Qed.

Lemma X4_witness :
  status_of (fst (post_analyze MoreSamples.E_disabled Samples.url Samples.st0)) = 400
  /\ engine_calls (trace (snd (post_analyze MoreSamples.E_disabled Samples.url Samples.st0))) = 0%nat
  /\ fs (snd (post_analyze MoreSamples.E_disabled Samples.url Samples.st0)) = Missing.
Proof.
  assert (status_of (fst (post_analyze MoreSamples.E_disabled Samples.url Samples.st0)) = 400)
    as H4 by (vm_compute; reflexivity).
  split; [exact H4 |].
  exact (X4_post_analyze_rejected MoreSamples.E_disabled Samples.url Samples.st0 H4).
Defined.

(** X5: when the analysis returns a failure, the endpoint answers 500 with
    the error of that failure and the cache file is left as it was. *)
Theorem X5_post_analyze_analysis_failed
    (E : env) (url vid text : string) (segs : list segment) (err : message)
    (st : state) :
  extract_video_id url = Some vid ->
  fst (get_cached_analysis vid st) = Return NotFound ->
  fst (fetch_transcript E vid st) = Return (FetchOk segs text) ->
  fst (analyze_transcript E text segs (snd (fetch_transcript E vid st)))
    = Return (AiFailed err) ->
  fst (post_analyze E url st) = HttpError 500 err
  /\ fs (snd (post_analyze E url st)) = fs st.
Proof.
  intros He Hs Hf Ha. apply stored_not_found in Hs.
  rewrite fetch_transcript_run in Hf, Ha. simpl in Hf, Ha.
  destruct (post_analyze_cases E url st)
    as [[He' Hp]|[(vid' & data & h & He' & Hs' & Hp & Hst)
       |[(vid' & msg & He' & Hs' & Hf' & Hp)
        |[(vid' & l & err' & st2 & He' & Hs' & Hf' & Ha' & Hp & Hfs & _)
         |(vid' & l & ts & p & h & He' & Hs' & Hf' & Ha' & Hp & Hst)]]]];
    try congruence;
    assert (vid' = vid) as -> by congruence; try congruence.
  - rewrite Hf' in Hf. discriminate.
  - rewrite Hf' in Hf. injection Hf as <- <-.
    rewrite Ha' in Ha. simpl in Ha. injection Ha as <-. by rewrite Hp.
  - rewrite Hf' in Hf. injection Hf as <- <-.
    rewrite Ha' in Ha. discriminate.
Qed.

Lemma X5_witness :
  fst (post_analyze MoreSamples.E_timeout Samples.url Samples.st0)
    = HttpError 500 (Text "AI request timed out. Please try again.")
  /\ fs (snd (post_analyze MoreSamples.E_timeout Samples.url Samples.st0)) = Missing.
Proof.
  refine (X5_post_analyze_analysis_failed MoreSamples.E_timeout Samples.url
            Samples.vid "Hello world" Samples.hello_world _ Samples.st0 _ _ _ _);
    vm_compute; reflexivity.
Defined.

End handler_guarantees.

Section handler_and_store.

Import youtube ai database main.

(** X6: after a request that missed the cache and whose analysis returned
    success, when the file reads as a mapping and the disk takes the write,
    the store holds under the identifier the record of this analysis, with
    the synthesized title and the engine's timestamps as they came, whether
    or not the response model takes them; every other entry is as it was. *)
Theorem X6_fresh_analysis_is_stored
    (E : env) (url vid text : string) (segs : list segment) (ts : json)
    (mfile : gmap string json) (st : state) :
  extract_video_id url = Some vid ->
  loaded (fs st) = JObj mfile ->
  mfile !! vid = None ->
  fst (fetch_transcript E vid st) = Return (FetchOk segs text) ->
  fst (analyze_transcript E text segs (snd (fetch_transcript E vid st)))
    = Return (AiOk ts) ->
  disk_write E = Written ->
  stored (snd (post_analyze E url st)) vid = Some (record E vid (title_of vid) ts)
  /\ forall k, k <> vid -> stored (snd (post_analyze E url st)) k = mfile !! k.
Proof.
  intros He Hm Hnone Hf Ha Hw.
  assert (stored st vid = None) as Hs by (by rewrite (stored_dict _ _ _ Hm)).
  rewrite fetch_transcript_run in Hf, Ha. simpl in Hf, Ha.
  destruct (post_analyze_cases E url st)
    as [[He' Hp]|[(vid' & data & h & He' & Hs' & Hp & Hst)
       |[(vid' & msg & He' & Hs' & Hf' & Hp)
        |[(vid' & l & err' & st2 & He' & Hs' & Hf' & Ha' & Hp & Hfs & _)
         |(vid' & l & ts' & p & h & He' & Hs' & Hf' & Ha' & Hp & Hst)]]]];
    try congruence;
    assert (vid' = vid) as -> by congruence; try congruence.
  - rewrite Hf' in Hf. discriminate.
  - rewrite Hf' in Hf. injection Hf as <- <-.
    rewrite Ha' in Ha. discriminate.
  - rewrite Hf' in Hf. injection Hf as <- <-.
    rewrite Ha' in Ha. simpl in Ha. injection Ha as ->.
    rewrite Hp. cbn [snd].
    rewrite (save_analysis_dict _ _ _ _ _ mfile) by done. rewrite Hw. cbn [snd].
    split.
    + rewrite (stored_dict _ (<[vid := record E vid (title_of vid) ts]> mfile)) by done.
      apply lookup_insert_eq.
    + intros k Hk.
      rewrite (stored_dict _ (<[vid := record E vid (title_of vid) ts]> mfile)) by done.
      by apply lookup_insert_ne.
Qed.

Lemma X6_witness :
  fst (post_analyze Samples.E_scalar Samples.url Samples.st0) = InternalServerError
  /\ stored (snd (post_analyze Samples.E_scalar Samples.url Samples.st0)) Samples.vid
     = Some (record Samples.E_scalar Samples.vid (title_of Samples.vid) (JInt 5)).
Proof.
  split; [vm_compute; reflexivity |].
  refine (proj1 (X6_fresh_analysis_is_stored Samples.E_scalar Samples.url
                   Samples.vid "Hello world" Samples.hello_world (JInt 5) ∅
                   Samples.st0 _ _ _ _ _ _));
    vm_compute; reflexivity.
Defined.

Lemma X7_witness :
  let st1 := snd (post_analyze Samples.E_ok Samples.url Samples.st0) in
  fst (post_analyze MoreSamples.E_timeout Samples.url st1) =
    Http200 {| success := true; video_id := Some Samples.vid;
               video_title := Some (title_of Samples.vid);
               timestamps := [ {| seconds := 0; time := "0:00"; reason := "Opening" |} ];
               cached := true; error := None |}
  /\ engine_calls (trace st1) = 1%nat.
Proof.
  intros st1.
  destruct (analyze_twice Samples.E_ok MoreSamples.E_timeout Samples.url
              Samples.vid Samples.st0 ∅
              {| text := "Hello"; start := 0; duration := 1 |}
              [ {| text := "world"; start := 1; duration := 1 |} ]
              [ Samples.opening_item ]
              [ {| seconds := 0; time := "0:00"; reason := "Opening" |} ])
    as (_ & Hhit & Hcalls); [vm_compute; reflexivity.. |].
  split; [exact (f_equal fst Hhit) | exact Hcalls].
Defined.

(** X8: [GET /api/results/{video_id}] only reads: it leaves the file and the
    trace as they were, whatever the stored entry is; it answers 200, 404 or
    500, and 404 exactly when the identifier is not found in the cache. *)
Theorem X8_get_results_read_only (E : env) (vid : string) (st : state) :
  snd (get_api_results E vid st) = st
  /\ (status_of (fst (get_api_results E vid st)) = 200
      \/ status_of (fst (get_api_results E vid st)) = 404
      \/ status_of (fst (get_api_results E vid st)) = 500)
  /\ (status_of (fst (get_api_results E vid st)) = 404 <->
      fst (get_cached_analysis vid st) = Return NotFound).
Proof.
  rewrite stored_not_found.
  unfold get_api_results, serve, get_results.
  rewrite bind_run, get_cached_analysis_run.
  destruct (stored st vid) as [data|] eqn:Hs; [|simpl; by intuition lia].
  destruct data as [| | | | | |m]; try (simpl; split; [done |]; split; [tauto |];
                                        split; [lia | done]).
  destruct (serve_new_AnalyzeResponse E vid
              (default (JStr "Unknown") (m !! "video_title"))
              (default (JList []) (m !! "timestamps")) true st) as (h & Hh & Hst).
  unfold serve in Hh.
  rewrite !bind_run. cbn [Py.get ret]. rewrite bind_run. cbn [ret].
  cbv [from_option id] in Hh. rewrite Hh. simpl.
  split; [done |]. split; [tauto |]. split; [lia | done].
Qed.

Lemma hit_is_get_results
    (E : env) (url vid : string) (data : json) (st : state) :
  extract_video_id url = Some vid ->
  stored st vid = Some data ->
  post_analyze E url st = get_api_results E vid st.
Proof.
  intros He Hs.
  unfold post_analyze, get_api_results, serve, get_results.
  rewrite (analyze_video_hit _ _ _ _ _ He Hs).
  by rewrite (bind_run (get_cached_analysis vid)), get_cached_analysis_run, Hs.
Qed.

(** X9: for an identifier that is in the cache, the analyze endpoint and the
    results endpoint give the same response and leave the same state. *)
Theorem X9_hit_same_as_results
    (E : env) (url vid : string) (data : json) (st : state) :
  extract_video_id url = Some vid ->
  fst (get_cached_analysis vid st) = Return (Found data) ->
  post_analyze E url st = get_api_results E vid st.
Proof.
  intros He Hs. apply stored_found in Hs. by apply (hit_is_get_results _ _ _ data).
Qed.

Lemma X9_witness :
  post_analyze Samples.E_ok Samples.url MoreSamples.st_one
  = get_api_results Samples.E_ok Samples.vid MoreSamples.st_one.
Proof.
  refine (X9_hit_same_as_results Samples.E_ok Samples.url Samples.vid
            (record Samples.E_ok Samples.vid (title_of Samples.vid)
               (JList [Samples.opening_item]))
            MoreSamples.st_one _ _);
    vm_compute; reflexivity.
Defined.

(** X10: when the cache file holds JSON that is not a mapping, a request
    never finds anything in it and never replaces it: after any request the
    file is as it was, so nothing is ever cached. *)
Theorem X10_non_mapping_file_stays
    (E : env) (url : string) (j : json) (st : state) :
  fs st = Holds j ->
  not_object j ->
  fs (snd (post_analyze E url st)) = fs st
  /\ forall k, stored (snd (post_analyze E url st)) k = None.
Proof.
  intros Hfs Hj.
  assert (forall m, loaded (fs st) <> JObj m) as Hn by (rewrite Hfs; exact Hj).
  assert (fs (snd (post_analyze E url st)) = fs st) as Hsame.
  { destruct (post_analyze_cases E url st)
      as [[He Hp]|[(vid & data & h & He & Hs & Hp & Hst)
         |[(vid & msg & He & Hs & Hf & Hp)
          |[(vid & l & err & st2 & He & Hs & Hf & _ & Hp & Hfs2 & _)
           |(vid & l & ts & p & h & He & Hs & Hf & _ & Hp & Hst)]]]];
      rewrite Hp; try done.
    cbn [snd].
    by destruct (save_analysis_not_dict E vid (title_of vid) ts
                   {| fs := fs st; trace := trace st ++ [EvFetch vid; EvPost p] |} Hn)
      as [err ->]. }
  split; [done |]. intros k. apply stored_not_dict. by rewrite Hsame.
Qed.

Lemma X10_witness :
  fst (post_analyze Samples.E_ok Samples.url MoreSamples.st_list) =
    Http200 {| success := true; video_id := Some Samples.vid;
               video_title := Some (title_of Samples.vid);
               timestamps := [ {| seconds := 0; time := "0:00"; reason := "Opening" |} ];
               cached := false; error := None |}
  /\ fs (snd (post_analyze Samples.E_ok Samples.url MoreSamples.st_list))
     = Holds (JList [JStr Samples.vid]).
Proof.
  split; [vm_compute; reflexivity |].
  refine (proj1 (X10_non_mapping_file_stays Samples.E_ok Samples.url
                   (JList [JStr Samples.vid]) MoreSamples.st_list eq_refl _)).
  intros m. discriminate.
Defined.

End handler_and_store.

(** ** The analysis step, case by case *)

Section engine_cases.

Import youtube ai database main.

Ltac to_post Hk :=
  unfold analyze_transcript; rewrite Hk; cbn [negb];
  unfold try_except, build_prompt; rewrite !bind_run; cbn [ret emit];
  rewrite bind_run; cbn [emit];
  change {| p_transcript := PyStr.join " " (map text (?s0 :: ?l));
            p_segments := length (?s0 :: ?l);
            p_first_start := start ?s0;
            p_last_start := start (List.last (?s0 :: ?l) ?s0) |}
    with (prompt_for s0 l).

(** X11: [analyze_transcript] never raises and never touches the cache
    file. It sends one request to the engine when the key is set and there is
    at least one segment, and none otherwise, in which case it returns a
    failure. *)
Theorem X11_analyze_transcript_total
    (E : env) (text : string) (l : list segment) (st : state) :
  exists r st',
    analyze_transcript E text l st = (Return r, st')
    /\ fs st' = fs st
    /\ ((Py.truthy (OPENROUTER_API_KEY E) = true /\ l <> []
         /\ exists p, trace st' = trace st ++ [EvPost p])
        \/ ((Py.truthy (OPENROUTER_API_KEY E) = false \/ l = [])
            /\ trace st' = trace st /\ exists err, r = AiFailed err)).
Proof.
  destruct (Py.truthy (OPENROUTER_API_KEY E)) eqn:Hk.
  - destruct l as [|s0 l].
    + rewrite analyze_transcript_no_segments by done.
      eexists _, _. split; [done |]. split; [done |]. right. eauto.
    + destruct (analyze_transcript_posts E text s0 l st Hk) as [r ->].
      eexists _, _. split; [done |]. split; [done |]. left. eauto.
  - rewrite analyze_transcript_unconfigured by done.
    eexists _, _. split; [done |]. split; [done |]. right. eauto.
Qed.

(** X12: when the request to the engine times out, the analysis returns the
    timed-out failure; when it fails in another way, the failure carries the
    text of the exception. In both cases the endpoint has nothing to save. *)
Theorem X12_engine_unreachable
    (E : env) (s0 : segment) (l : list segment) (st : state) :
  Py.truthy (OPENROUTER_API_KEY E) = true ->
  (requests_post E (default EmptyString (OPENROUTER_API_KEY E)) (prompt_for s0 l)
     = TimedOut ->
   analyze_transcript E (PyStr.join " " (map text (s0 :: l))) (s0 :: l) st =
     (Return (AiFailed (Text "AI request timed out. Please try again.")),
      {| fs := fs st; trace := trace st ++ [EvPost (prompt_for s0 l)] |}))
  /\ (forall msg,
        requests_post E (default EmptyString (OPENROUTER_API_KEY E)) (prompt_for s0 l)
          = RequestFailed msg ->
        analyze_transcript E (PyStr.join " " (map text (s0 :: l))) (s0 :: l) st =
          (Return (AiFailed (Text ("AI analysis failed: " +:+ msg))),
           {| fs := fs st; trace := trace st ++ [EvPost (prompt_for s0 l)] |})).
Proof.
  intros Hk. split.
  - intros Hpost. to_post Hk. by rewrite Hpost.
  - intros msg Hpost. to_post Hk. by rewrite Hpost.
Qed.

Lemma X12_witness :
  analyze_transcript MoreSamples.E_timeout "Hello world" Samples.hello_world Samples.st0
  = (Return (AiFailed (Text "AI request timed out. Please try again.")),
     {| fs := Missing;
        trace := [EvPost (prompt_for {| text := "Hello"; start := 0; duration := 1 |}
                            [ {| text := "world"; start := 1; duration := 1 |} ])] |}).
Proof.
  refine (proj1 (X12_engine_unreachable MoreSamples.E_timeout
                   {| text := "Hello"; start := 0; duration := 1 |}
                   [ {| text := "world"; start := 1; duration := 1 |} ]
                   Samples.st0 _) _);
    vm_compute; reflexivity.
Defined.

(** X13: an answer of the engine with a status other than 200 is never a
    success, whatever its body. When the body is a JSON object whose error
    entry carries a message string, the failure is that message; when the
    object has no error entry, the failure is the text of the body. *)
Theorem X13_engine_error_status
    (E : env) (s0 : segment) (l : list segment) (st : state) (resp : Response) :
  Py.truthy (OPENROUTER_API_KEY E) = true ->
  requests_post E (default EmptyString (OPENROUTER_API_KEY E)) (prompt_for s0 l)
    = Responded resp ->
  status_code resp <> 200 ->
  let st' := {| fs := fs st; trace := trace st ++ [EvPost (prompt_for s0 l)] |} in
  (exists err,
     analyze_transcript E (PyStr.join " " (map text (s0 :: l))) (s0 :: l) st
     = (Return (AiFailed err), st'))
  /\ (forall m em msg,
        json_loads E (body resp) = inl (JObj m) ->
        m !! "error" = Some (JObj em) ->
        em !! "message" = Some (JStr msg) ->
        analyze_transcript E (PyStr.join " " (map text (s0 :: l))) (s0 :: l) st
        = (Return (AiFailed (Text ("OpenRouter API error: " +:+ msg))), st'))
  /\ (forall m,
        json_loads E (body resp) = inl (JObj m) ->
        m !! "error" = None ->
        analyze_transcript E (PyStr.join " " (map text (s0 :: l))) (s0 :: l) st
        = (Return (AiFailed (Text ("OpenRouter API error: " +:+ body resp))), st')).
Proof.
  intros Hk Hpost Hstatus st'. subst st'.
  apply Z.eqb_neq in Hstatus.
  split; [|split].
  - to_post Hk. rewrite Hpost, Hstatus. cbn [negb].
    unfold response_json. rewrite !bind_run.
    destruct (json_loads E (body resp)) as [j|e]; [|destruct e; simpl; eauto].
    cbn [ret]. rewrite bind_run.
    destruct j as [| | | | | |m]; try (simpl; eauto; fail).
    cbn [Py.get ret]. rewrite bind_run.
    destruct (m !! "error") as [[| | | | | |em]|]; simpl; eauto.
  - intros m em msg Hbody Herr Hmsg. to_post Hk.
    rewrite Hpost, Hstatus. cbn [negb].
    unfold response_json. rewrite !bind_run, Hbody.
    cbn [ret]. rewrite bind_run. cbn [Py.get ret]. rewrite Herr, bind_run.
    cbn [Py.get ret]. by rewrite Hmsg.
  - intros m Hbody Herr. to_post Hk.
    rewrite Hpost, Hstatus. cbn [negb].
    unfold response_json. rewrite !bind_run, Hbody.
    cbn [ret]. rewrite bind_run. cbn [Py.get ret]. rewrite Herr, bind_run.
    cbn [Py.get ret]. by rewrite lookup_empty.
Qed.

Lemma X13_witness :
  analyze_transcript MoreSamples.E_unauthorized "Hello world" Samples.hello_world Samples.st0
  = (Return (AiFailed (Text "OpenRouter API error: No auth credentials found")),
     {| fs := Missing;
        trace := [EvPost (prompt_for {| text := "Hello"; start := 0; duration := 1 |}
                            [ {| text := "world"; start := 1; duration := 1 |} ])] |}).
Proof.
  destruct (X13_engine_error_status MoreSamples.E_unauthorized
              {| text := "Hello"; start := 0; duration := 1 |}
              [ {| text := "world"; start := 1; duration := 1 |} ]
              Samples.st0
              {| status_code := 401; body := MoreSamples.unauthorized_text |})
    as (_ & Hmsg & _); [vm_compute; reflexivity | vm_compute; reflexivity
                       | discriminate |].
  refine (Hmsg {[ "error" := JObj {[ "message" := JStr "No auth credentials found" ]} ]}
               {[ "message" := JStr "No auth credentials found" ]}
               "No auth credentials found" _ _ _);
    vm_compute; reflexivity.
Defined.

End engine_cases.

Section engine_envelope.

Import youtube ai database main.

Ltac to_answer Hk Hpost Hstatus :=
  unfold analyze_transcript; rewrite Hk; cbn [negb];
  unfold try_except, build_prompt; rewrite !bind_run; cbn [ret emit];
  rewrite bind_run; cbn [emit];
  change {| p_transcript := PyStr.join " " (map text (?s0 :: ?l));
            p_segments := length (?s0 :: ?l);
            p_first_start := start ?s0;
            p_last_start := start (List.last (?s0 :: ?l) ?s0) |}
    with (prompt_for s0 l);
  rewrite Hpost, Hstatus; cbn [Z.eqb Pos.eqb negb];
  unfold response_json; rewrite !bind_run.

(** X14: a 200 of the engine whose body is not the expected envelope is an
    analysis failure: a body that is not JSON gives the parse-failure
    message, an object without a choices entry the failure of the missing
    key, an empty list of choices the failure of the index out of range. *)
Theorem X14_engine_envelope
    (E : env) (s0 : segment) (l : list segment) (st : state) (resp : Response) :
  Py.truthy (OPENROUTER_API_KEY E) = true ->
  requests_post E (default EmptyString (OPENROUTER_API_KEY E)) (prompt_for s0 l)
    = Responded resp ->
  status_code resp = 200 ->
  let st' := {| fs := fs st; trace := trace st ++ [EvPost (prompt_for s0 l)] |} in
  let answer := analyze_transcript E (PyStr.join " " (map text (s0 :: l))) (s0 :: l) st in
  (forall msg,
     json_loads E (body resp) = inr (JSONDecodeError msg) ->
     answer = (Return (AiFailed (Text ("Failed to parse AI response: " +:+ msg))), st'))
  /\ (forall m,
        json_loads E (body resp) = inl (JObj m) ->
        m !! "choices" = None ->
        answer = (Return (AiFailed (Interp "AI analysis failed: "
                                   (KeyError (JStr "choices")))), st'))
  /\ (forall m,
        json_loads E (body resp) = inl (JObj m) ->
        m !! "choices" = Some (JList []) ->
        answer = (Return (AiFailed (Text "AI analysis failed: list index out of range")),
               st')).
Proof.
  intros Hk Hpost Hstatus st' answer. subst st' answer. split; [|split].
  - intros msg Hbody. to_answer Hk Hpost Hstatus. by rewrite Hbody.
  - intros m Hbody Hc. to_answer Hk Hpost Hstatus. rewrite Hbody.
    cbn [ret]. rewrite bind_run. unfold Py.getitem at 1. by rewrite Hc.
  - intros m Hbody Hc. to_answer Hk Hpost Hstatus. rewrite Hbody.
    cbn [ret]. rewrite bind_run. unfold Py.getitem at 1. rewrite Hc.
    cbn [ret]. by rewrite bind_run.
Qed.

Lemma X14_witness :
  analyze_transcript MoreSamples.E_no_choice "Hello world" Samples.hello_world Samples.st0
  = (Return (AiFailed (Text "AI analysis failed: list index out of range")),
     {| fs := Missing;
        trace := [EvPost (prompt_for {| text := "Hello"; start := 0; duration := 1 |}
                            [ {| text := "world"; start := 1; duration := 1 |} ])] |}).
Proof.
  destruct (X14_engine_envelope MoreSamples.E_no_choice
              {| text := "Hello"; start := 0; duration := 1 |}
              [ {| text := "world"; start := 1; duration := 1 |} ]
              Samples.st0
              {| status_code := 200; body := MoreSamples.no_choice_text |})
    as (_ & _ & Hempty); [vm_compute; reflexivity.. |].
  refine (Hempty {[ "choices" := JList [] ]} _ _); vm_compute; reflexivity.
Defined.

(** X15: when the content of the engine's answer decodes to something other
    than an object (a bare list of highlights, a string, a number), the
    analysis returns a failure, not the list. *)
Theorem X15_content_not_object
    (E : env) (s0 : segment) (l : list segment) (st : state) (resp : Response)
    (m c mm : gmap string json) (rest : list json) (content : string) (j : json) :
  Py.truthy (OPENROUTER_API_KEY E) = true ->
  requests_post E (default EmptyString (OPENROUTER_API_KEY E)) (prompt_for s0 l)
    = Responded resp ->
  status_code resp = 200 ->
  json_loads E (body resp) = inl (JObj m) ->
  m !! "choices" = Some (JList (JObj c :: rest)) ->
  c !! "message" = Some (JObj mm) ->
  mm !! "content" = Some (JStr content) ->
  json_loads E (unfence (PyStr.strip content)) = inl j ->
  not_object j ->
  analyze_transcript E (PyStr.join " " (map text (s0 :: l))) (s0 :: l) st
  = (Return (AiFailed (Interp "AI analysis failed: " AttributeError)),
     {| fs := fs st; trace := trace st ++ [EvPost (prompt_for s0 l)] |}).
Proof.
  intros Hk Hpost Hstatus Hbody Hchoices Hmessage Hcontent Hj Hno.
  rewrite (analyze_transcript_content E s0 l st resp m c mm rest content)
    by done.
  rewrite Hj. destruct j as [| | | | | |pm]; try done. by destruct (Hno pm).
Qed.

Lemma X15_witness :
  analyze_transcript MoreSamples.E_bare_list "Hello world" Samples.hello_world Samples.st0
  = (Return (AiFailed (Interp "AI analysis failed: " AttributeError)),
     {| fs := Missing;
        trace := [EvPost (prompt_for {| text := "Hello"; start := 0; duration := 1 |}
                            [ {| text := "world"; start := 1; duration := 1 |} ])] |}).
Proof.
  refine (X15_content_not_object MoreSamples.E_bare_list
            {| text := "Hello"; start := 0; duration := 1 |}
            [ {| text := "world"; start := 1; duration := 1 |} ]
            Samples.st0
            {| status_code := 200; body := Samples.chat_text "[]" |}
            {[ "choices" :=
                 JList [ JObj {[ "message" := JObj {[ "content" := JStr "[]" ]} ]} ] ]}
            {[ "message" := JObj {[ "content" := JStr "[]" ]} ]}
            {[ "content" := JStr "[]" ]}
            [] "[]" (JList []) _ _ _ _ _ _ _ _ _);
    try (vm_compute; reflexivity).
  intros pm. discriminate.
Defined.

End engine_envelope.

(** ** Removing the fence *)

Section fences.

Import PyStr ai.

Lemma no_backtick_app (a b : string) :
  no_backtick (a +:+ b) = no_backtick a && no_backtick b.
Proof.
  induction a as [|c a IH]; [done |].
  rewrite app_cons. simpl. rewrite IH. by rewrite andb_assoc.
Qed.

Lemma startswith_fence_cons (c : ascii) (s : string) :
  (code c =? 96)%N = false -> startswith (String c s) fence = false.
Proof.
  intros Hc. unfold startswith, fence. cbn [strip_prefix].
  destruct (Ascii.eqb_spec "`"%char c) as [<-|Hne];
    [vm_compute in Hc; discriminate | done].
Qed.

Lemma until_closing (c rest : string) :
  no_backtick c = true -> until fence (c +:+ fence +:+ rest) = c.
Proof.
  induction c as [|x c IH]; intros Hn.
  - rewrite app_nil_l_str. destruct rest; reflexivity.
  - simpl in Hn. apply andb_prop in Hn as [Hx Hc].
    apply negb_true_iff in Hx. rewrite app_cons.
    change (until fence (String x (c +:+ fence +:+ rest)))
      with (if startswith (String x (c +:+ fence +:+ rest)) fence
            then EmptyString
            else String x (until fence (c +:+ fence +:+ rest))).
    by rewrite startswith_fence_cons, IH.
Qed.

Lemma until_open (c : string) : no_backtick c = true -> until fence c = c.
Proof.
  induction c as [|x c IH]; intros Hn; [reflexivity |].
  simpl in Hn. apply andb_prop in Hn as [Hx Hc]. apply negb_true_iff in Hx.
  change (until fence (String x c))
    with (if startswith (String x c) fence then EmptyString
          else String x (until fence c)).
  by rewrite startswith_fence_cons, IH.
Qed.

(** X16: a block between fences is read as its inside, stripped: with the
    json tag and a closing fence (whatever follows it), with the tag and no
    closing fence, and without the tag when the inside does not itself start
    with json. The inside is any text without a backtick. *)
Theorem X16_unfence_block (c : string) :
  no_backtick c = true ->
  (forall rest, unfence (fence +:+ "json" +:+ c +:+ fence +:+ rest) = strip c)
  /\ unfence (fence +:+ "json" +:+ c) = strip c
  /\ (startswith c "json" = false ->
      forall rest, unfence (fence +:+ c +:+ fence +:+ rest) = strip c).
Proof.
  intros Hn.
  assert (no_backtick ("json" +:+ c) = true) as Hj
    by (by rewrite no_backtick_app, Hn).
  split; [|split].
  - intros rest. unfold unfence. change "```" with fence.
    rewrite strip_prefix_app.
    replace ("json" +:+ c +:+ fence +:+ rest)
      with (("json" +:+ c) +:+ fence +:+ rest) by (by rewrite app_assoc_str).
    by rewrite until_closing.
  - unfold unfence. change "```" with fence.
    rewrite strip_prefix_app. by rewrite until_open.
  - intros Hs rest. unfold unfence. change "```" with fence.
    rewrite strip_prefix_app, until_closing by done. by rewrite Hs.
Qed.

Lemma X16_witness :
  unfence (fence +:+ "json" +:+ " {} " +:+ fence +:+ " Hope this helps!") = "{}"
  /\ unfence (fence +:+ " {} " +:+ fence +:+ EmptyString) = "{}".
Proof.
  destruct (X16_unfence_block " {} " eq_refl) as (Htag & _ & Hplain).
  split; [exact (Htag " Hope this helps!") | exact (Hplain eq_refl EmptyString)].
Defined.

Lemma lstrip_head (s : string) (c : ascii) (t : string) :
  lstrip s = String c t -> is_space c = false.
Proof.
  induction s as [|x s IH]; simpl; [discriminate |].
  destruct (is_space x) eqn:Hx; [done |]. by intros [= <- _].
Qed.

Lemma rstrip_head (c : ascii) (t : string) :
  is_space c = false -> exists t', rstrip (String c t) = String c t'.
Proof.
  intros Hc. simpl. destruct (rstrip t); [rewrite Hc |]; eauto.
Qed.

Lemma rstrip_last (s t : string) (c : ascii) :
  rstrip s = t +:+ String c EmptyString -> is_space c = false.
Proof.
  revert t. induction s as [|x s IH]; intros t; simpl.
  - destruct t; [rewrite app_nil_l_str | rewrite app_cons]; discriminate.
  - destruct (rstrip s) as [|y r] eqn:Hr.
    + destruct (is_space x) eqn:Hx.
      * destruct t; [rewrite app_nil_l_str | rewrite app_cons]; discriminate.
      * destruct t as [|z t].
        -- rewrite app_nil_l_str. by intros [= <-].
        -- rewrite app_cons. intros [= _ Ht].
           destruct t; [rewrite app_nil_l_str in Ht | rewrite app_cons in Ht];
             discriminate.
    + destruct t as [|z t].
      * rewrite app_nil_l_str. discriminate.
      * rewrite app_cons. intros [= _ Ht]. by apply (IH t).
Qed.

(** X17: what [unfence] returns neither starts nor ends with a whitespace
    character, for every text. *)
Theorem X17_unfence_stripped (s : string) :
  (forall c t, unfence s = String c t -> is_space c = false)
  /\ (forall t c, unfence s = t +:+ String c EmptyString -> is_space c = false).
Proof.
  unfold unfence.
  set (inner := match strip_prefix "```" s with
                | Some rest =>
                    if startswith (until "```" rest) "json"
                    then drop 4 (until "```" rest) else until "```" rest
                | None => s
                end).
  unfold strip. split.
  - intros c t H. destruct (lstrip inner) as [|x r] eqn:Hl; [discriminate |].
    pose proof (lstrip_head _ _ _ Hl) as Hx.
    destruct (rstrip_head x r Hx) as [t' Ht']. rewrite Ht' in H.
    by injection H as <- _.
  - intros t c H. by apply rstrip_last in H.
Qed.

End fences.

(** ** The transcript and the identifier *)

Section transcript_text.

Import PyStr youtube.

Lemma join_cons (sep p q : string) (rest : list string) :
  join sep (p :: q :: rest) = p +:+ sep +:+ join sep (q :: rest).
Proof. reflexivity. Qed.

Lemma join_length (parts : list string) :
  String.length (join " " parts)
  = (total_length parts + (length parts - 1))%nat.
Proof.
  induction parts as [|p [|q rest] IH].
  - reflexivity.
  - simpl. lia.
  - rewrite join_cons, !length_app_str, IH. simpl. lia.
Qed.

Lemma join_contains (parts : list string) (p : string) :
  In p parts -> contains p (join " " parts) = true.
Proof.
  intros Hin. apply contains_spec.
  induction parts as [|q [|q' rest] IH]; [done | |].
  - destruct Hin as [->|[]]. exists EmptyString, EmptyString.
    by rewrite app_nil_l_str, app_nil_r_str.
  - rewrite join_cons. destruct Hin as [->|Hin].
    + exists EmptyString, (" " +:+ join " " (q' :: rest)). done.
    + destruct (IH Hin) as (pre & suf & ->).
      exists (q +:+ " " +:+ pre), suf. by rewrite !app_assoc_str.
Qed.

(** X18: when the transcript service answers, [fetch_transcript] returns its
    segments unchanged and in order, with a full text that contains the text
    of every segment and is as long as the texts together plus one space
    between neighbours; the service is called once and the cache file is not
    touched. *)
Theorem X18_fetch_transcript_text
    (E : env) (vid : string) (l : list segment) (st : state) :
  ytt_fetch E vid = Snippets l ->
  exists full_text,
    fetch_transcript E vid st =
      (Return (FetchOk l full_text),
       {| fs := fs st; trace := trace st ++ [EvFetch vid] |})
    /\ String.length full_text
       = (total_length (map text l) + (length l - 1))%nat
    /\ forall s, In s l -> contains (text s) full_text = true.
Proof.
  intros Hf. rewrite fetch_transcript_run, Hf. eexists. split; [done |]. split.
  - by rewrite join_length, length_map.
  - intros s Hs. apply join_contains. by apply in_map.
Qed.

Lemma X18_witness :
  fetch_transcript Samples.E_ok Samples.vid Samples.st0 =
    (Return (FetchOk Samples.hello_world "Hello world"),
     {| fs := Missing; trace := [EvFetch Samples.vid] |})
  /\ String.length "Hello world" = 11%nat.
Proof.
  destruct (X18_fetch_transcript_text Samples.E_ok Samples.vid
              Samples.hello_world Samples.st0 eq_refl)
    as (full_text & Hrun & Hlen & _).
  assert (full_text = "Hello world") as ->.
  { assert (fetch_transcript Samples.E_ok Samples.vid Samples.st0 =
              (Return (FetchOk Samples.hello_world "Hello world"),
               {| fs := Missing; trace := [EvFetch Samples.vid] |})) as Hc
      by (vm_compute; reflexivity).
    rewrite Hc in Hrun. by injection Hrun as <-. }
  split; [exact Hrun | exact Hlen].
Defined.

End transcript_text.

Section identifier_bounds.

Import PyStr youtube.

(** X19: what is extracted is always eleven characters of the identifier
    alphabet, and each of the three URL forms built around it extracts it
    again. *)
Theorem X19_extract_canonical (url t : string) :
  extract_video_id url = Some t ->
  String.length t = 11%nat /\ all_id t = true
  /\ extract_video_id (watch_url t) = Some t
  /\ extract_video_id (short_url t) = Some t
  /\ extract_video_id (embed_url t) = Some t.
Proof.
  intros H. destruct (extract_video_id_token _ _ H) as [Hl Ha].
  repeat split; try done.
  - rewrite <- (app_nil_r_str (watch_url t)). by apply extract_watch_url.
  - by apply extract_short_url.
  - by apply extract_embed_url.
Qed.

Lemma X19_witness :
  extract_video_id
    "see https://www.youtube.com/embed/dQw4w9WgXcQ?start=3 or https://youtu.be/AAAAAAAAAAA"
  = Some "AAAAAAAAAAA"
  /\ extract_video_id (watch_url "AAAAAAAAAAA") = Some "AAAAAAAAAAA".
Proof.
  assert (extract_video_id
            "see https://www.youtube.com/embed/dQw4w9WgXcQ?start=3 or https://youtu.be/AAAAAAAAAAA"
          = Some "AAAAAAAAAAA") as H by (vm_compute; reflexivity).
  split; [exact H |].
  exact (proj1 (proj2 (proj2 (X19_extract_canonical _ _ H)))).
Defined.

Lemma take_id_short (n : nat) (s : string) :
  (String.length s < n)%nat -> take_id n s = None.
Proof.
  revert s. induction n as [|n IH]; intros s Hl; [lia |].
  destruct s as [|c s]; [done |]. simpl in *.
  destruct (id_char c); [|done]. rewrite IH by lia. done.
Qed.

(** X20: a run of fewer than eleven identifier characters after a marker is
    not an identifier: none of the three URL forms built around it extracts
    anything. *)
Theorem X20_extract_too_short (tok : string) :
  (String.length tok < 11)%nat -> all_id tok = true ->
  extract_video_id (watch_url tok) = None
  /\ extract_video_id (short_url tok) = None
  /\ extract_video_id (embed_url tok) = None.
Proof.
  intros Hl Ha.
  assert (re_search "youtube.com/watch?v=" tok = None) as Hw
    by (by apply re_search_all_id).
  assert (re_search "youtu.be/" tok = None) as Hs
    by (by apply re_search_all_id).
  assert (re_search "youtube.com/embed/" tok = None) as He
    by (by apply re_search_all_id).
  assert (forall marker, match_here marker (marker +:+ tok) = None) as Hm.
  { intros marker. unfold match_here.
    by rewrite strip_prefix_app, take_id_short. }
  unfold extract_video_id, watch_url, short_url, embed_url, patterns, first_match.
  rewrite !app_cons, !app_nil_l_str.
  pose proof (Hm "youtube.com/watch?v=") as H1.
  pose proof (Hm "youtu.be/") as H2.
  pose proof (Hm "youtube.com/embed/") as H3.
  rewrite !app_cons, ?app_nil_l_str in H1.
  rewrite !app_cons, ?app_nil_l_str in H2.
  rewrite !app_cons, ?app_nil_l_str in H3.
  repeat split.
  - simpl re_search. by rewrite H1, Hw, Hs, He.
  - simpl re_search. by rewrite Hw, H2, Hs, He.
  - simpl re_search. by rewrite Hw, Hs, H3, He.
Qed.

Lemma X20_witness :
  extract_video_id "https://youtu.be/dQw4w9WgXc" = None.
Proof.
  exact (proj1 (proj2 (X20_extract_too_short "dQw4w9WgXc" ltac:(simpl; lia) eq_refl))).
Defined.

(** X21: a run of more than eleven identifier characters is cut after the
    eleventh: the short-link and embed forms built around an eleven-character
    token followed by further identifier characters extract the token. *)
Theorem X21_extract_first_eleven (tok more : string) :
  String.length tok = 11%nat -> all_id tok = true -> all_id more = true ->
  extract_video_id (short_url (tok +:+ more)) = Some tok
  /\ extract_video_id (embed_url (tok +:+ more)) = Some tok.
Proof.
  intros Hl Ha Hm.
  assert (all_id (tok +:+ more) = true) as Hall by (by rewrite all_id_app, Ha, Hm).
  assert (re_search "youtube.com/watch?v=" (tok +:+ more) = None) as Hw
    by (by apply re_search_all_id).
  assert (re_search "youtu.be/" (tok +:+ more) = None) as Hs
    by (by apply re_search_all_id).
  unfold extract_video_id, short_url, embed_url, patterns, first_match.
  rewrite !app_cons, !app_nil_l_str. split.
  - simpl re_search. rewrite Hw.
    unfold match_here at 1. simpl strip_prefix.
    rewrite <- Hl, take_id_app; done.
  - simpl re_search. rewrite Hw, Hs.
    unfold match_here at 1. simpl strip_prefix.
    rewrite <- Hl, take_id_app; done.
Qed.

Lemma X21_witness :
  extract_video_id "https://youtu.be/dQw4w9WgXcQ_and_more" = Some "dQw4w9WgXcQ".
Proof.
  exact (proj1 (X21_extract_first_eleven "dQw4w9WgXcQ" "_and_more"
                  eq_refl eq_refl eq_refl)).
Defined.

End identifier_bounds.

(** ** More on the cache store *)

Section cache_store_edges.

Import database.

(** X22: [get] finds nothing, raises nothing and changes nothing when the
    cache file is missing, unreadable, or holds JSON that is not a mapping,
    even a list or a string in which the identifier occurs. *)
Theorem X22_get_degrades (k : string) (st : state) :
  fs st = Missing \/ fs st = Unreadable
  \/ (exists j, fs st = Holds j /\ not_object j) ->
  get_cached_analysis k st = (Return NotFound, st).
Proof.
  intros H. rewrite get_cached_analysis_run.
  assert (stored st k = None) as ->; [|done].
  destruct H as [H|[H|(j & H & Hj)]].
  - rewrite (stored_dict st ∅); [apply lookup_empty | by rewrite H].
  - rewrite (stored_dict st ∅); [apply lookup_empty | by rewrite H].
  - apply stored_not_dict. by rewrite H.
Qed.

Lemma X22_witness :
  get_cached_analysis Samples.vid MoreSamples.st_list
  = (Return NotFound, MoreSamples.st_list).
Proof.
  apply X22_get_degrades. right; right.
  exists (JList [JStr Samples.vid]). split; [reflexivity |].
  intros m. discriminate.
Defined.

(** X23: [put] never raises; it returns the failure result exactly when no
    mapping can be loaded from the cache file, that is when the file holds
    JSON that is not a mapping or when the test for its existence raises,
    whatever the disk does at the write; in the second case the failure
    carries the text of the exception; a failing [put] leaves the file and
    the trace as they were. *)
Theorem X23_put_failure_result
    (E : env) (k title : string) (ts : json) (st : state) :
  (exists r, fst (save_analysis E k title ts st) = Return r)
  /\ ((exists err, fst (save_analysis E k title ts st) = Return (SaveFailed err))
      <-> (exists j, fs st = Holds j /\ not_object j)
          \/ (exists msg, fs st = Inaccessible msg))
  /\ (forall msg, fs st = Inaccessible msg ->
        fst (save_analysis E k title ts st)
        = Return (SaveFailed (Text ("Failed to save to cache: " +:+ msg))))
  /\ ((exists err, fst (save_analysis E k title ts st) = Return (SaveFailed err))
      -> snd (save_analysis E k title ts st) = st).
Proof.
  destruct (loaded_cases (fs st)) as [[m Hm]|Hn].
  - rewrite (save_analysis_dict _ _ _ _ _ _ Hm). cbn [fst snd].
    split; [eauto |]. split; [|split].
    + split; [by intros [err Herr] |].
      intros [(j & Hj & Hno)|[msg Hmsg]].
      * rewrite Hj in Hm. simpl in Hm. by destruct (Hno m).
      * rewrite Hmsg in Hm. discriminate.
    + intros msg Hmsg. rewrite Hmsg in Hm. discriminate.
    + by intros [err Herr].
  - destruct (save_analysis_not_dict E k title ts st Hn) as [err Herr].
    split; [rewrite Herr; eauto |]. split; [|split].
    + rewrite Herr. cbn [fst]. split; [|eauto].
      intros _. destruct (fs st) as [| |j|msg] eqn:Hfs; simpl in Hn.
      * by destruct (Hn ∅).
      * by destruct (Hn ∅).
      * left. by exists j.
      * right. by exists msg.
    + intros msg Hmsg.
      unfold save_analysis, try_except, bind. rewrite load_cache_run, Hmsg.
      reflexivity.
    + intros _. by rewrite Herr.
Qed.

Lemma X23_witness :
  fst (save_analysis Samples.E_ok Samples.vid (main.title_of Samples.vid)
         (JList [Samples.opening_item])
         {| fs := Inaccessible "[Errno 13] Permission denied: 'cache.json'";
            trace := [] |})
  = Return (SaveFailed
      (Text "Failed to save to cache: [Errno 13] Permission denied: 'cache.json'")).
Proof.
  by apply (X23_put_failure_result Samples.E_ok Samples.vid
              (main.title_of Samples.vid) (JList [Samples.opening_item])
              {| fs := Inaccessible "[Errno 13] Permission denied: 'cache.json'";
                 trace := [] |}).
Defined.

(** X24: when the write fails after the file was opened, [put] still returns
    success and every entry that was in the store is gone: [get] finds nothing
    for any identifier. *)
Theorem X24_failed_dump_empties_store
    (E : env) (k title msg : string) (ts : json) (st : state) :
  (exists m, loaded (fs st) = JObj m) ->
  disk_write E = DumpFailed msg ->
  fst (save_analysis E k title ts st) = Return SaveOk
  /\ forall k', stored (snd (save_analysis E k title ts st)) k' = None.
Proof.
  intros [m Hm] Hw. rewrite (save_analysis_dict _ _ _ _ _ _ Hm), Hw.
  split; [done |]. intros k'. cbn [snd].
  rewrite (stored_dict _ ∅) by done. apply lookup_empty.
Qed.

Lemma X24_witness :
  let E := with_disk (DumpFailed "[Errno 28] No space left on device") Samples.E_ok in
  stored MoreSamples.st_one Samples.vid
    = Some (record Samples.E_ok Samples.vid (main.title_of Samples.vid)
              (JList [Samples.opening_item]))
  /\ fst (save_analysis E "AAAAAAAAAAA" "other" (JList []) MoreSamples.st_one)
     = Return SaveOk
  /\ stored (snd (save_analysis E "AAAAAAAAAAA" "other" (JList []) MoreSamples.st_one))
       Samples.vid = None.
Proof.
  intros E. split; [vm_compute; reflexivity |].
  destruct (X24_failed_dump_empties_store E "AAAAAAAAAAA" "other"
              "[Errno 28] No space left on device" (JList []) MoreSamples.st_one)
    as [Hok Hgone].
  - eexists. vm_compute. reflexivity.
  - reflexivity.
  - split; [exact Hok | exact (Hgone Samples.vid)].
Defined.

(** X25: two writes the disk takes, one after the other: the second record
    is found under its identifier, the first under its own when the two
    identifiers differ, and every other entry is as it was. *)
Theorem X25_two_puts
    (E1 E2 : env) (k1 title1 k2 title2 : string) (ts1 ts2 : json)
    (m : gmap string json) (st : state) :
  loaded (fs st) = JObj m ->
  disk_write E1 = Written ->
  disk_write E2 = Written ->
  let st2 := snd (save_analysis E2 k2 title2 ts2
                    (snd (save_analysis E1 k1 title1 ts1 st))) in
  stored st2 k2 = Some (record E2 k2 title2 ts2)
  /\ (k1 <> k2 -> stored st2 k1 = Some (record E1 k1 title1 ts1))
  /\ forall k, k <> k1 -> k <> k2 -> stored st2 k = m !! k.
Proof.
  intros Hm H1 H2 st2. subst st2.
  rewrite (save_analysis_dict _ _ _ _ _ _ Hm), H1. cbn [snd].
  rewrite (save_analysis_dict _ _ _ _ _
             (<[k1 := record E1 k1 title1 ts1]> m)) by done.
  rewrite H2. cbn [snd].
  repeat split.
  - rewrite (stored_dict _ (<[k2 := record E2 k2 title2 ts2]>
                            (<[k1 := record E1 k1 title1 ts1]> m))) by done.
    apply lookup_insert_eq.
  - intros Hne.
    rewrite (stored_dict _ (<[k2 := record E2 k2 title2 ts2]>
                            (<[k1 := record E1 k1 title1 ts1]> m))) by done.
    rewrite lookup_insert_ne by done. apply lookup_insert_eq.
  - intros k Hk1 Hk2.
    rewrite (stored_dict _ (<[k2 := record E2 k2 title2 ts2]>
                            (<[k1 := record E1 k1 title1 ts1]> m))) by done.
    by rewrite !lookup_insert_ne.
Qed.

Lemma X25_witness :
  let st2 := snd (save_analysis Samples.E_ok "AAAAAAAAAAA" "second" (JList [])
                    (snd (save_analysis Samples.E_ok "AAAAAAAAAAA" "first"
                            (JList [Samples.opening_item]) Samples.st0))) in
  stored st2 "AAAAAAAAAAA"
  = Some (record Samples.E_ok "AAAAAAAAAAA" "second" (JList [])).
Proof.
  exact (proj1 (X25_two_puts Samples.E_ok Samples.E_ok "AAAAAAAAAAA" "first"
                  "AAAAAAAAAAA" "second" (JList [Samples.opening_item]) (JList [])
                  ∅ Samples.st0 eq_refl eq_refl eq_refl)).
Defined.

Lemma save_cache_written (E : env) (cache : json) (st : state) :
  disk_write E = Written ->
  _save_cache E cache st = (Return tt, {| fs := Holds cache; trace := trace st |}).
Proof. intros H. unfold _save_cache. by rewrite H. Qed.

(** X26: two saves for different identifiers that both load the file before
    either writes it back: the file ends with the record of the save that
    wrote last, and under the identifier of the other save there is what was
    there before, not its record. *)
Theorem X26_racing_saves_lose_one
    (E1 E2 : env) (k1 title1 k2 title2 : string) (ts1 ts2 : json)
    (m : gmap string json) (st : state) :
  loaded (fs st) = JObj m ->
  disk_write E1 = Written ->
  disk_write E2 = Written ->
  k1 <> k2 ->
  let st' := snd (racing_saves E1 E2 k1 title1 ts1 k2 title2 ts2 st) in
  fst (racing_saves E1 E2 k1 title1 ts1 k2 title2 ts2 st) = Return tt
  /\ stored st' k2 = Some (record E2 k2 title2 ts2)
  /\ stored st' k1 = m !! k1.
Proof.
  intros Hm H1 H2 Hne st'. subst st'.
  unfold racing_saves. rewrite bind_run, (load_cache_dict _ _ Hm).
  rewrite bind_run, (load_cache_dict _ _ Hm).
  rewrite bind_run. cbn [Py.setitem ret].
  rewrite bind_run, (save_cache_written E1) by done.
  rewrite bind_run. cbn [Py.setitem ret].
  rewrite (save_cache_written E2) by done. cbn [fst snd].
  repeat split.
  - rewrite (stored_dict _ (<[k2 := record E2 k2 title2 ts2]> m)) by done.
    apply lookup_insert_eq.
  - rewrite (stored_dict _ (<[k2 := record E2 k2 title2 ts2]> m)) by done.
    by apply lookup_insert_ne.
Qed.

Lemma X26_witness :
  let st' := snd (racing_saves Samples.E_ok Samples.E_ok
                    "AAAAAAAAAAA" "first" (JList [])
                    "BBBBBBBBBBB" "second" (JList []) Samples.st0) in
  stored st' "BBBBBBBBBBB"
    = Some (record Samples.E_ok "BBBBBBBBBBB" "second" (JList []))
  /\ stored st' "AAAAAAAAAAA" = None.
Proof.
  destruct (X26_racing_saves_lose_one Samples.E_ok Samples.E_ok
              "AAAAAAAAAAA" "first" "BBBBBBBBBBB" "second" (JList []) (JList [])
              ∅ Samples.st0 eq_refl eq_refl eq_refl) as (_ & H2 & H1).
  - discriminate.
  - split; [exact H2 | exact H1].
Defined.

End cache_store_edges.

(** ** More on the responses *)

Section responses.

Import youtube ai database main.

(** X27: when the disk does not take the write, a request that missed the
    cache leaves its identifier out of the cache, whatever the analysis gave:
    the next request for it misses again. *)
Theorem X27_failed_write_not_cached
    (E : env) (url vid : string) (st : state) :
  extract_video_id url = Some vid ->
  fst (get_cached_analysis vid st) = Return NotFound ->
  disk_write E <> Written ->
  fst (get_cached_analysis vid (snd (post_analyze E url st))) = Return NotFound.
Proof.
  intros He Hs Hw. rewrite stored_not_found in Hs |- *.
  destruct (post_analyze_cases E url st)
    as [[He' Hp]|[(vid' & data & h & He' & Hs' & Hp & Hst)
       |[(vid' & msg & He' & Hs' & Hf' & Hp)
        |[(vid' & l & err' & st2 & He' & Hs' & Hf' & Ha' & Hp & Hfs & _)
         |(vid' & l & ts' & p & h & He' & Hs' & Hf' & Ha' & Hp & Hst)]]]];
    rewrite Hp; cbn [snd]; try done.
  - by rewrite <- (stored_fs st).
  - by rewrite (stored_fs st2 st).
  - assert (vid' = vid) as -> by congruence.
    destruct (loaded_cases (fs st)) as [[m Hm]|Hn].
    + rewrite (save_analysis_dict _ _ _ _ _ m) by done.
      destruct (disk_write E) as [|msg|msg]; [done | |]; cbn [snd].
      * by rewrite <- (stored_fs st).
      * rewrite (stored_dict _ ∅) by done. apply lookup_empty.
    + match goal with
      | |- context [save_analysis ?E0 ?k0 ?t0 ?ts0 ?st0] =>
          destruct (save_analysis_not_dict E0 k0 t0 ts0 st0 Hn) as [err ->]
      end.
      by rewrite <- (stored_fs st).
Qed.

Lemma X27_witness :
  let E := with_disk (OpenFailed "[Errno 13] Permission denied") Samples.E_ok in
  status_of (fst (post_analyze E Samples.url Samples.st0)) = 200
  /\ fst (get_cached_analysis Samples.vid (snd (post_analyze E Samples.url Samples.st0)))
     = Return NotFound.
Proof.
  intros E. split; [vm_compute; reflexivity |].
  apply (X27_failed_write_not_cached E Samples.url Samples.vid Samples.st0);
    [vm_compute; reflexivity | vm_compute; reflexivity | discriminate].
Defined.

(** X28: a stored entry that is an object without a title and without
    timestamps is served with the title Unknown and an empty list of
    highlights, by the analyze endpoint and by the results endpoint. *)
Theorem X28_hit_defaults
    (E : env) (url vid : string) (m : gmap string json) (st : state) :
  extract_video_id url = Some vid ->
  fst (get_cached_analysis vid st) = Return (Found (JObj m)) ->
  m !! "video_title" = None ->
  m !! "timestamps" = None ->
  let r := Http200 {| success := true; video_id := Some vid;
                      video_title := Some "Unknown"; timestamps := [];
                      cached := true; error := None |} in
  post_analyze E url st = (r, st) /\ get_api_results E vid st = (r, st).
Proof.
  intros He Hs Ht Hts r. apply stored_found in Hs.
  assert (post_analyze E url st = (r, st)) as Hp.
  { apply (post_analyze_hit _ _ _ _ m); try done.
    - by rewrite Ht.
    - by rewrite Hts. }
  split; [done |]. by rewrite <- (hit_is_get_results E url vid (JObj m) st).
Qed.

Lemma X28_witness :
  let st := {| fs := Holds (JObj {[ Samples.vid := JObj ∅ ]}); trace := [] |} in
  fst (get_api_results Samples.E_ok Samples.vid st) =
    Http200 {| success := true; video_id := Some Samples.vid;
               video_title := Some "Unknown"; timestamps := [];
               cached := true; error := None |}.
Proof.
  intros st.
  destruct (X28_hit_defaults Samples.E_ok Samples.url Samples.vid ∅ st)
    as [_ Hget]; [vm_compute; reflexivity.. |].
  exact (f_equal fst Hget).
Defined.

Lemma new_AnalyzeResponse_fields (E : env) (vid : string) (title ts : json)
    (c : bool) (st : state) (r : AnalyzeResponse) :
  fst (serve (new_AnalyzeResponse E vid title ts c) st) = Http200 r ->
  success r = true /\ video_id r = Some vid /\ cached r = c /\ error r = None.
Proof.
  unfold serve. rewrite new_AnalyzeResponse_run.
  destruct (validate_title E title), (validate_timestamps E ts); simpl;
    try discriminate.
  by intros [= <-].
Qed.

(** X29: every 200 of the analyze endpoint carries success, the identifier
    extracted from the URL and no error text, and it is marked cached exactly
    when the identifier was found in the cache. *)
Theorem X29_success_response
    (E : env) (url : string) (st : state) (r : AnalyzeResponse) :
  fst (post_analyze E url st) = Http200 r ->
  exists vid,
    extract_video_id url = Some vid
    /\ success r = true /\ video_id r = Some vid /\ error r = None
    /\ (cached r = true <->
        exists data, fst (get_cached_analysis vid st) = Return (Found data)).
Proof.
  intros H. unfold post_analyze in H.
  destruct (extract_video_id url) as [vid|] eqn:He.
  2:{ unfold serve in H. rewrite (analyze_video_invalid _ _ _ He) in H.
      discriminate. }
  exists vid. split; [done |].
  destruct (stored st vid) as [data|] eqn:Hs.
  - assert (exists title ts,
              fst (serve (new_AnalyzeResponse E vid title ts true) st) = Http200 r)
      as (title & ts & Hr).
    { unfold serve in H |- *. rewrite (analyze_video_hit _ _ _ _ _ He Hs) in H.
      destruct data as [| | | | | |m]; try discriminate.
      rewrite !bind_run in H. cbn [Py.get ret] in H.
      rewrite bind_run in H. cbn [ret] in H. eauto. }
    destruct (new_AnalyzeResponse_fields _ _ _ _ _ _ _ Hr) as (? & ? & Hc & ?).
    repeat split; try done. intros _. exists data. by apply stored_found.
  - unfold serve in H. rewrite (analyze_video_miss _ _ _ _ He Hs) in H.
    destruct (ytt_fetch E vid) as [l|msg]; [|discriminate].
    rewrite bind_run in H.
    destruct (analyze_transcript E _ l _) as [[[ts|err]|e] st2];
      [|discriminate|destruct e; discriminate].
    rewrite bind_run in H.
    destruct (save_analysis_returns E vid (title_of vid) ts st2) as (sr & st3 & Hsave).
    rewrite Hsave in H.
    assert (fst (serve (new_AnalyzeResponse E vid (JStr (title_of vid)) ts false) st3)
            = Http200 r) as Hr by exact H.
    destruct (new_AnalyzeResponse_fields _ _ _ _ _ _ _ Hr) as (? & ? & Hc & ?).
    repeat split; try done.
    + rewrite Hc. discriminate.
    + intros [data Hd]. apply stored_found in Hd. congruence.
Qed.

Lemma X29_witness :
  exists vid,
    youtube.extract_video_id Samples.url = Some vid
    /\ vid = "dQw4w9WgXcQ".
Proof.
  destruct (X29_success_response Samples.E_ok Samples.url Samples.st0
              {| success := true; video_id := Some Samples.vid;
                 video_title := Some (title_of Samples.vid);
                 timestamps := [ {| seconds := 0; time := "0:00"; reason := "Opening" |} ];
                 cached := false; error := None |})
    as (vid & He & _ & Hv & _); [vm_compute; reflexivity |].
  exists vid. split; [exact He |]. simpl in Hv. by injection Hv as <-.
Defined.

End responses.
